(** * University Data MCP server: the request-translation layer

    A shallow embedding of the five enveloped routes of the Express server
    ([/search], [/getUniversity], [/getUniversityByName], [/getFields],
    [/statistics]) and of the part of the JavaScript runtime their bodies
    rely on, followed by the properties of the service's specification.

    Layout:
    - [JS]      JSON values and the coercions the handlers trigger
                (truthiness, [typeof], [ToString], [ToNumber], property reads);
    - [Async]   the body of an [async] handler: it returns, throws, or awaits
                an [axios.get];
    - the handlers, transcribed statement by statement;
    - the static routes ([/], [/schema]) and the routing table;
    - [Client]  the client library: [JSON.stringify], [encodeURIComponent],
                the body of an [async] method that awaits a [fetch], and the
                methods of [UniversityDataClient];
    - the theorems: those of the specification, then further properties of
      the handlers, of the schema and of the client. *)

From Stdlib Require Import String Ascii List ZArith QArith Bool Lia DecimalString.
From ExtLib Require Import Structures.Monad Structures.MonadExc.
Import ListNotations.
Import MonadNotation.

Set Warnings "-register-all".
Local Close Scope Q_scope.
Local Open Scope list_scope.
Local Open Scope monad_scope.
Local Open Scope string_scope.

(* ===================================================================== *)
(** * Strings *)
(* ===================================================================== *)

(** Strings are sequences of code units below 256; the string methods used by
    the server act on them unit by unit. *)
Module Str.

(** [s.includes(p)] *)
Fixpoint includes (s p : string) : bool :=
  String.prefix p s
  || match s with
     | EmptyString => false
     | String _ s' => includes s' p
     end.

(** [s.replace(/c/g, r)] for a one-character pattern and replacement. *)
Fixpoint replace_all (c r : ascii) (s : string) : string :=
  match s with
  | EmptyString => EmptyString
  | String a s' => String (if Ascii.eqb a c then r else a) (replace_all c r s')
  end.

(** [xs.join(sep)] on an array of strings. *)
Definition join (sep : string) (xs : list string) : string :=
  String.concat sep xs.

Definition is_empty (s : string) : bool :=
  match s with EmptyString => true | _ => false end.

(** The code units of [StrWhiteSpaceChar] below 256: TAB, LF, VT, FF, CR,
    SP and NBSP. *)
Definition white_space (c : ascii) : bool :=
  let n := nat_of_ascii c in
  ((9 <=? n) && (n <=? 13) || (n =? 32) || (n =? 160))%nat.

Fixpoint trim_start (s : string) : string :=
  match s with
  | String c s' => if white_space c then trim_start s' else s
  | EmptyString => EmptyString
  end.

Fixpoint trim_end (s : string) : string :=
  match s with
  | String c s' =>
      let t := trim_end s' in
      if is_empty t && white_space c then EmptyString else String c t
  | EmptyString => EmptyString
  end.

Definition trim (s : string) : string := trim_end (trim_start s).

(** [s.endsWith(p)] *)
Definition ends_with (s p : string) : bool :=
  String.eqb (String.substring (String.length s - String.length p) (String.length p) s) p.

Definition of_nat (n : nat) : string := NilZero.string_of_uint (Nat.to_uint n).
Definition of_Z (z : Z) : string := NilZero.string_of_uint (N.to_uint (Z.to_N z)).

Fixpoint repeat (c : ascii) (n : nat) : string :=
  match n with O => EmptyString | S n' => String c (repeat c n') end.

(** The first [n] code units and the rest. *)
Fixpoint split_at (n : nat) (s : string) : string * string :=
  match n, s with
  | S n', String c s' => let '(a, b) := split_at n' s' in (String c a, b)
  | _, _ => (EmptyString, s)
  end.

End Str.

(* ===================================================================== *)
(** * The JavaScript values of the server *)
(* ===================================================================== *)

Module JS.

(** ** Numbers

    A Number is NaN, an infinity, or a finite binary64 value. Finite values
    are carried by the rational they denote; [-0] is not told apart from
    [0] (nothing in the server divides by a number or calls [Object.is]). *)
Inductive JNumber : Type :=
| Fin (q : Q)
| NaN
| PosInf
| NegInf.

Definition of_Z (z : Z) : JNumber := Fin (inject_Z z).

Definition isNaN (n : JNumber) : bool :=
  match n with NaN => true | _ => false end.

(** [x < y] on Numbers; any comparison with NaN is false. *)
Definition Number_lt (x y : JNumber) : bool :=
  match x, y with
  | NaN, _ | _, NaN => false
  | Fin a, Fin b => negb (Qle_bool b a)
  | NegInf, NegInf => false
  | NegInf, _ => true
  | _, NegInf => false
  | PosInf, _ => false
  | Fin _, PosInf => true
  end.

(** [x <= y] on Numbers. *)
Definition Number_le (x y : JNumber) : bool :=
  match x, y with
  | NaN, _ | _, NaN => false
  | _, _ => negb (Number_lt y x)
  end.

Definition Number_eqb (x y : JNumber) : bool :=
  match x, y with
  | Fin a, Fin b => Qeq_bool a b
  | PosInf, PosInf | NegInf, NegInf => true
  | _, _ => false
  end.

(** *** Rounding to binary64 *)

Definition round_half_even (n d : Z) : Z :=
  let q := (n / d)%Z in
  match (2 * (n mod d) ?= d)%Z with
  | Lt => q
  | Gt => (q + 1)%Z
  | Eq => if Z.even q then q else (q + 1)%Z
  end.

(** The binary64 value nearest to [a / d], for [a, d > 0]: 53 significant
    bits, the unit in the last place no smaller than 2^-1074, ties to even,
    overflow to infinity. *)
Definition binary64_pos (a d : Z) : JNumber :=
  let e0 := (Z.log2 a - Z.log2 d)%Z in
  let above := if (0 <=? e0)%Z then (d * 2 ^ e0 <=? a)%Z
               else (d <=? a * 2 ^ (- e0))%Z in
  let e := if above then e0 else (e0 - 1)%Z in
  let k := Z.max (e - 52) (-1074) in
  if (0 <=? k)%Z then
    let m := round_half_even a (d * 2 ^ k) in
    if (2 ^ 1024 <=? m * 2 ^ k)%Z then PosInf else of_Z (m * 2 ^ k)
  else
    let m := round_half_even (a * 2 ^ (- k)) d in
    Fin (Qred (Qmake m (Z.to_pos (2 ^ (- k))))).

Definition Number_neg (n : JNumber) : JNumber :=
  match n with
  | Fin q => Fin (Qopp q)
  | NaN => NaN
  | PosInf => NegInf
  | NegInf => PosInf
  end.

(** The binary64 value nearest to [m * 10^e]. *)
Definition binary64_dec (m e : Z) : JNumber :=
  let a := Z.abs m in
  if (a =? 0)%Z then of_Z 0
  else
    let r := if (0 <=? e)%Z then binary64_pos (a * 10 ^ e) 1
             else binary64_pos a (10 ^ (- e)) in
    if (m <? 0)%Z then Number_neg r else r.

(** *** [StringToNumber]: the StringNumericLiteral grammar *)

Definition digit_value (base : Z) (c : ascii) : option Z :=
  let n := Z.of_nat (nat_of_ascii c) in
  let d := if ((48 <=? n) && (n <=? 57))%Z then Some (n - 48)%Z
           else if ((97 <=? n) && (n <=? 102))%Z then Some (n - 87)%Z
           else if ((65 <=? n) && (n <=? 70))%Z then Some (n - 55)%Z
           else None in
  match d with
  | Some v => if (v <? base)%Z then Some v else None
  | None => None
  end.

(** The longest run of digits at the head of [s]: its value (on top of
    [acc]), its length (on top of [cnt]) and what follows. *)
Fixpoint take_digits (base acc : Z) (cnt : nat) (s : string) : Z * nat * string :=
  match s with
  | String c s' =>
      match digit_value base c with
      | Some d => take_digits base (acc * base + d)%Z (S cnt) s'
      | None => (acc, cnt, s)
      end
  | EmptyString => (acc, cnt, s)
  end.

(** [0x], [0o] and [0b] literals: no sign, at least one digit. *)
Definition NonDecimalIntegerLiteral (s : string) : option Z :=
  match s with
  | String "0" (String p ds) =>
      let base :=
        if (Ascii.eqb p "x" || Ascii.eqb p "X")%char then Some 16%Z
        else if (Ascii.eqb p "o" || Ascii.eqb p "O")%char then Some 8%Z
        else if (Ascii.eqb p "b" || Ascii.eqb p "B")%char then Some 2%Z
        else None in
      match base with
      | Some b =>
          match take_digits b 0 0 ds with
          | (v, S _, EmptyString) => Some v
          | _ => None
          end
      | None => None
      end
  | _ => None
  end.

Definition take_sign (s : string) : bool * string :=
  match s with
  | String "-" s' => (true, s')
  | String "+" s' => (false, s')
  | _ => (false, s)
  end.

(** [ExponentPart] followed by the end of the string, or just the end. *)
Definition ExponentPart (s : string) : option Z :=
  match s with
  | EmptyString => Some 0%Z
  | String c s' =>
      if (Ascii.eqb c "e" || Ascii.eqb c "E")%char then
        let '(neg, ds) := take_sign s' in
        match take_digits 10 0 0 ds with
        | (v, S _, EmptyString) => Some (if neg then (- v)%Z else v)
        | _ => None
        end
      else None
  end.

(** [StrUnsignedDecimalLiteral] other than [Infinity], as a mantissa and
    a power of ten. *)
Definition StrUnsignedDecimalLiteral (s : string) : option (Z * Z) :=
  let '(ip, ni, r1) := take_digits 10 0 0 s in
  match r1 with
  | String "." r1' =>
      let '(m, n, r2) := take_digits 10 ip ni r1' in
      match n with
      | O => None
      | _ =>
          match ExponentPart r2 with
          | Some e => Some (m, (e - Z.of_nat (n - ni))%Z)
          | None => None
          end
      end
  | _ =>
      match ni with
      | O => None
      | _ =>
          match ExponentPart r1 with
          | Some e => Some (ip, e)
          | None => None
          end
      end
  end.

(** [Number(s)] for a string [s]. *)
Definition StringToNumber (str : string) : JNumber :=
  let s := Str.trim str in
  if Str.is_empty s then of_Z 0
  else
    match NonDecimalIntegerLiteral s with
    | Some v => binary64_dec v 0
    | None =>
        let '(neg, body) := take_sign s in
        if String.eqb body "Infinity" then (if neg then NegInf else PosInf)
        else
          match StrUnsignedDecimalLiteral body with
          | Some (m, e) =>
              if neg then Number_neg (binary64_dec m e) else binary64_dec m e
          | None => NaN
          end
    end.

(** *** [Number::toString]: the shortest digits that read back *)

(** [a / d < 10^n] *)
Definition lt_pow10 (a d n : Z) : bool :=
  if (0 <=? n)%Z then (a <? d * 10 ^ n)%Z else (a * 10 ^ (- n) <? d)%Z.

(** The [n] with [10^(n-1) <= a/d < 10^n], searched from [n]. *)
Fixpoint decimal_exponent (fuel : nat) (a d n : Z) : Z :=
  match fuel with
  | O => n
  | S fuel' =>
      if lt_pow10 a d n then
        if lt_pow10 a d (n - 1) then decimal_exponent fuel' a d (n - 1) else n
      else decimal_exponent fuel' a d (n + 1)
  end.

(** The integers [s], [k], [n] of [Number::toString] for [x = a / d > 0]:
    [k] digits [s] with [s * 10^(n-k)] reading back as [x], [k] least,
    tried for [k] up to [k + fuel]. *)
Fixpoint shortest_digits (fuel : nat) (x : JNumber) (a d n k : Z) : Z * Z * Z :=
  let p := (n - k)%Z in
  let '(sa, sd) := if (0 <=? p)%Z then (a, d * 10 ^ p)%Z else (a * 10 ^ (- p), d)%Z in
  let lo := (sa / sd)%Z in
  let hi := (lo + 1)%Z in
  let reads_back c := Number_eqb (binary64_dec c p) x in
  let pick c := if (c =? 10 ^ k)%Z then (c / 10, k, n + 1)%Z else (c, k, n) in
  match fuel with
  | O => pick (round_half_even sa sd)
  | S fuel' =>
      match reads_back lo, reads_back hi with
      | true, true => pick (round_half_even sa sd)
      | true, false => pick lo
      | false, true => pick hi
      | false, false => shortest_digits fuel' x a d n (k + 1)
      end
  end.

Definition Number_toString_pos (q : Q) : string :=
  let a := Qnum q in
  let d := Zpos (Qden q) in
  let n0 := decimal_exponent (Z.to_nat (Z.log2 a + Z.log2 d + 2)) a d 0 in
  let '(s, k, n) := shortest_digits 16 (Fin q) a d n0 1 in
  let digits := Str.of_Z s in
  if ((k <=? n) && (n <=? 21))%Z then
    digits ++ Str.repeat "0" (Z.to_nat (n - k))
  else if ((0 <? n) && (n <=? 21))%Z then
    let '(i, f) := Str.split_at (Z.to_nat n) digits in i ++ "." ++ f
  else if ((-6 <? n) && (n <=? 0))%Z then
    "0." ++ Str.repeat "0" (Z.to_nat (- n)) ++ digits
  else
    let e := (n - 1)%Z in
    let exponent := (if (e <? 0)%Z then "-" else "+") ++ Str.of_Z (Z.abs e) in
    let '(i, f) := Str.split_at 1 digits in
    if (k =? 1)%Z then i ++ "e" ++ exponent else i ++ "." ++ f ++ "e" ++ exponent.

(** [String(n)] for a Number [n]: exact on binary64 values. *)
Definition Number_toString (n : JNumber) : string :=
  match n with
  | NaN => "NaN"
  | PosInf => "Infinity"
  | NegInf => "-Infinity"
  | Fin q =>
      match Qnum q with
      | Z0 => "0"
      | Zpos _ => Number_toString_pos q
      | Zneg _ => "-" ++ Number_toString_pos (Qopp q)
      end
  end.

(** ** Values

    The values a JSON document can hold, and [undefined]. An object is the
    list of its own properties in enumeration order, each key once. *)
Inductive JValue : Type :=
| JUndefined
| JNull
| JBool (b : bool)
| JNum (n : JNumber)
| JStr (s : string)
| JArr (items : list JValue)
| JObj (props : list (string * JValue)).

Definition JInt (z : Z) : JValue := JNum (of_Z z).

(** The outcome of evaluating an expression: a value, or a thrown
    [TypeError], the one exception the coercions and reads below raise. *)
Inductive Completion (A : Type) : Type :=
| Normal (a : A)
| ThrowTypeError.
Arguments Normal {A} a.
Arguments ThrowTypeError {A}.

Definition Completion_bind {A B} (c : Completion A) (f : A -> Completion B) : Completion B :=
  match c with
  | Normal a => f a
  | ThrowTypeError => ThrowTypeError
  end.

#[export] Instance Monad_Completion : Monad Completion :=
  {| ret := @Normal; bind := @Completion_bind |}.

(** ** Coercions *)

(** [ToBoolean] *)
Definition truthy (v : JValue) : bool :=
  match v with
  | JUndefined | JNull => false
  | JBool b => b
  | JNum (Fin q) => negb (Qeq_bool q 0)
  | JNum NaN => false
  | JNum _ => true
  | JStr s => negb (Str.is_empty s)
  | JArr _ | JObj _ => true
  end.

Definition typeof (v : JValue) : string :=
  match v with
  | JUndefined => "undefined"
  | JNull | JArr _ | JObj _ => "object"
  | JBool _ => "boolean"
  | JNum _ => "number"
  | JStr _ => "string"
  end.

Fixpoint lookup (key : string) (props : list (string * JValue)) : option JValue :=
  match props with
  | [] => None
  | (k, v) :: rest => if String.eqb k key then Some v else lookup key rest
  end.

Definition has_own (key : string) (props : list (string * JValue)) : bool :=
  match lookup key props with Some _ => true | None => false end.

(** [ToString]. An array joins the strings of its elements with commas,
    [null] and [undefined] elements giving the empty string. A plain object
    gives ["[object Object]"] through the inherited [toString], unless an own
    property of that name shadows it: a JSON value is not callable, and
    [OrdinaryToPrimitive] then finds no primitive and throws. *)
Fixpoint ToString (v : JValue) : Completion string :=
  match v with
  | JUndefined => Normal "undefined"
  | JNull => Normal "null"
  | JBool b => Normal (if b then "true" else "false")
  | JNum n => Normal (Number_toString n)
  | JStr s => Normal s
  | JArr items =>
      let element x :=
        match x with
        | JUndefined | JNull => Normal ""
        | _ => ToString x
        end in
      (fix joined (xs : list JValue) : Completion string :=
         match xs with
         | [] => Normal ""
         | [x] => element x
         | x :: rest =>
             match element x with
             | Normal s =>
                 match joined rest with
                 | Normal t => Normal (s ++ "," ++ t)
                 | ThrowTypeError => ThrowTypeError
                 end
             | ThrowTypeError => ThrowTypeError
             end
         end) items
  | JObj props =>
      if has_own "toString" props then ThrowTypeError
      else Normal "[object Object]"
  end.

(** [ToNumber], which is what [Number(v)] computes. *)
Definition ToNumber (v : JValue) : Completion JNumber :=
  match v with
  | JUndefined => Normal NaN
  | JNull => Normal (of_Z 0)
  | JBool b => Normal (of_Z (if b then 1 else 0))
  | JNum n => Normal n
  | JStr s => Normal (StringToNumber s)
  | JArr _ | JObj _ =>
      match ToString v with
      | Normal s => Normal (StringToNumber s)
      | ThrowTypeError => ThrowTypeError
      end
  end.

(** [v > n] and [v <= n] against a numeric literal [n]: the left operand
    is converted with [ToNumber]. *)
Definition gt (v : JValue) (n : JNumber) : Completion bool :=
  x <- ToNumber v ;; ret (Number_lt n x).

Definition le (v : JValue) (n : JNumber) : Completion bool :=
  x <- ToNumber v ;; ret (Number_le x n).

(** [a === b] and the [SameValueZero] of [Array.prototype.includes]; two
    objects are equal only when they are the same object, which a value
    parsed from a request never is with a literal of the program. *)
Definition strict_equals (a b : JValue) : bool :=
  match a, b with
  | JUndefined, JUndefined | JNull, JNull => true
  | JBool x, JBool y => Bool.eqb x y
  | JNum x, JNum y => Number_eqb x y
  | JStr x, JStr y => String.eqb x y
  | _, _ => false
  end.

Definition Array_includes (xs : list JValue) (v : JValue) : bool :=
  existsb (fun x => match x, v with
                    | JNum NaN, JNum NaN => true
                    | _, _ => strict_equals x v
                    end) xs.

(** ** Property reads

    [v.key] and [v[key]]: own properties, and the [length] and the indices
    of arrays and strings. Inherited properties are left out. Of the names
    the server reads on a value of unknown shape ([results], [total_count],
    [message], [length], [0], the keys [Object.keys] returned, and the request
    fields) the only inherited one is [filter] on a request body that is an
    array, which [/statistics] reads and never uses: such a body has no
    [field] and is rejected first. *)
Fixpoint at_index {A} (key : string) (i : nat) (xs : list A) : option A :=
  match xs with
  | [] => None
  | x :: rest => if String.eqb (Str.of_nat i) key then Some x else at_index key (S i) rest
  end.

Definition chars (s : string) : list JValue :=
  map (fun c => JStr (String c EmptyString)) (list_ascii_of_string s).

Definition or_undefined (o : option JValue) : JValue :=
  match o with Some v => v | None => JUndefined end.

Definition get (v : JValue) (key : string) : Completion JValue :=
  match v with
  | JUndefined | JNull => ThrowTypeError
  | JBool _ | JNum _ => Normal JUndefined
  | JStr s =>
      if String.eqb key "length" then Normal (JInt (Z.of_nat (String.length s)))
      else Normal (or_undefined (at_index key 0 (chars s)))
  | JArr items =>
      if String.eqb key "length" then Normal (JInt (Z.of_nat (List.length items)))
      else Normal (or_undefined (at_index key 0 items))
  | JObj props => Normal (or_undefined (lookup key props))
  end.

(** [v?.key] *)
Definition opt (v : JValue) (key : string) : JValue :=
  match get v key with
  | Normal x => x
  | ThrowTypeError => JUndefined
  end.

(** [x] unless it is [undefined], as a default value applies. *)
Definition default_to (default x : JValue) : JValue :=
  match x with JUndefined => default | _ => x end.

(** A destructuring pattern [{ key = default }]. *)
Definition get_default (v : JValue) (key : string) (default : JValue) : Completion JValue :=
  x <- get v key ;; ret (default_to default x).

Fixpoint indexed {A} (i : nat) (xs : list A) : list (string * A) :=
  match xs with
  | [] => []
  | x :: rest => (Str.of_nat i, x) :: indexed (S i) rest
  end.

(** [Object.entries(v)] *)
Definition Object_entries (v : JValue) : Completion (list (string * JValue)) :=
  match v with
  | JUndefined | JNull => ThrowTypeError
  | JBool _ | JNum _ => Normal []
  | JStr s => Normal (indexed 0 (chars s))
  | JArr items => Normal (indexed 0 items)
  | JObj props => Normal props
  end.

(** [Object.keys(v)] *)
Definition Object_keys (v : JValue) : Completion (list string) :=
  entries <- Object_entries v ;; ret (map fst entries).

(** [a || b] *)
Definition or_else (a b : JValue) : JValue := if truthy a then a else b.

End JS.

(* ===================================================================== *)
(** * Async handler bodies *)
(* ===================================================================== *)

Module Async.
Import JS.

(** What axios hands back for an HTTP response. *)
Record AxiosResponse : Type := mkAxiosResponse { status : Z; data : JValue }.

(** What a [throw] carries: the server only ever reads [error.response],
    which a [TypeError] and a plain [Error] do not have, and an axios error
    has when the upstream answered. *)
Inductive Thrown : Type :=
| TypeError
| Error (message : string)
| AxiosError (response : option AxiosResponse).

(** How the promise of [axios.get] settles. *)
Inductive AxiosResult : Type :=
| Resolved (response : AxiosResponse)
| Rejected (response : option AxiosResponse).

(** The body of an [async] function: it returns, throws, or awaits
    [axios.get(url, { params })] and goes on with how that settles. *)
Inductive Async (A : Type) : Type :=
| Return (a : A)
| Throw (e : Thrown)
| Await (url : string) (params : JValue) (k : AxiosResult -> Async A).
Arguments Return {A} a.
Arguments Throw {A} e.
Arguments Await {A} url params k.

Fixpoint Async_bind {A B} (c : Async A) (f : A -> Async B) : Async B :=
  match c with
  | Return a => f a
  | Throw e => Throw e
  | Await url params k => Await url params (fun r => Async_bind (k r) f)
  end.

(** [try { body } catch (error) { handler }] *)
Fixpoint try_catch {A} (body : Async A) (handler : Thrown -> Async A) : Async A :=
  match body with
  | Return a => Return a
  | Throw e => handler e
  | Await url params k => Await url params (fun r => try_catch (k r) handler)
  end.

#[export] Instance Monad_Async : Monad Async :=
  {| ret := @Return; bind := @Async_bind |}.

#[export] Instance Exception_Async : MonadExc Thrown Async :=
  {| raise := @Throw; catch := @try_catch |}.

(** An expression evaluated inside the body. *)
Definition sync {A} (c : Completion A) : Async A :=
  match c with
  | Normal a => Return a
  | ThrowTypeError => Throw TypeError
  end.

(** [await axios.get(url, { params })]: a rejection is thrown. *)
Definition axios_get (url : string) (params : JValue) : Async AxiosResponse :=
  Await url params (fun r =>
    match r with
    | Resolved response => Return response
    | Rejected response => Throw (AxiosError response)
    end).

(** The upstream service, as seen through axios. *)
Definition Upstream : Type := string -> JValue -> AxiosResult.

(** Running a body against an upstream: the calls issued, in order, and
    how the body completes. *)
Fixpoint run {A} (upstream : Upstream) (c : Async A) : list (string * JValue) * (A + Thrown) :=
  match c with
  | Return a => ([], inl a)
  | Throw e => ([], inr e)
  | Await url params k =>
      let '(calls, result) := run upstream (k (upstream url params)) in
      ((url, params) :: calls, result)
  end.

(** ** The query string of a call

    What [axios.get(url, { params })] puts in the query string, with the
    default serialiser of axios 1: the pairs of a name and a scalar it
    appends, in order, before they are percent-encoded. *)

(** A value axios walks into rather than appends: an array or an object. *)
Definition visitable (v : JValue) : bool :=
  match v with
  | JArr _ | JObj _ => true
  | _ => false
  end.

(** The values axios skips: [null] and [undefined]. *)
Definition skipped (v : JValue) : bool :=
  match v with
  | JUndefined | JNull => true
  | _ => false
  end.

(** [removeBrackets(key)]: a final [[]] is dropped. *)
Definition remove_brackets (key : string) : string :=
  if Str.ends_with key "[]" then String.substring 0 (String.length key - 2) key else key.

(** [renderKey(path, key)]: the first token bare, each of the others
    between brackets. *)
Definition render_key (path : list string) (key : string) : string :=
  match path with
  | [] => key
  | first :: others =>
      remove_brackets first
      ++ String.concat "" (map (fun token => "[" ++ remove_brackets token ++ "]")
                             (others ++ [key]))
  end.

(** [build(value, path)] below the first level: every property of an
    object and every element of an array that is not skipped is walked into
    when it is an array or an object, and appended otherwise, under the path
    that leads to it. The name of a property is trimmed where it ends a
    path, and is taken as it is where the path goes on. *)
Fixpoint build (path : list string) (value : JValue) {struct value} : list (string * JValue) :=
  let visit (key leaf : string) (el : JValue) : list (string * JValue) :=
    match el with
    | JUndefined | JNull => []
    | JArr _ | JObj _ => build (path ++ [key]) el
    | _ => [(render_key path leaf, el)]
    end in
  match value with
  | JArr items =>
      (fix each (index : nat) (els : list JValue) {struct els} : list (string * JValue) :=
         match els with
         | [] => []
         | el :: rest =>
             (visit (Str.of_nat index) (Str.of_nat index) el ++ each (S index) rest)%list
         end) 0%nat items
  | JObj props => flat_map (fun kv => visit (fst kv) (Str.trim (fst kv)) (snd kv)) props
  | _ => []
  end.

(** One parameter. A scalar is appended under the name of the parameter;
    an array of scalars gives one pair per element that is not skipped,
    under the name followed by [[]]; any other array and an object are
    walked into. Axios reads a name that ends in [{}] or in [[]] as a
    request to write the value as JSON or to unwrap it; the names the
    handlers give their parameters ([limit], [offset], [where], [q],
    [select], [group_by]) end in neither, and those two readings are left
    out. *)
Definition render_param (kv : string * JValue) : list (string * JValue) :=
  match snd kv with
  | JUndefined | JNull => []
  | JArr items =>
      if forallb (fun el => negb (visitable el)) items
      then map (fun el => (remove_brackets (Str.trim (fst kv)) ++ "[]", el))
             (filter (fun el => negb (skipped el)) items)
      else build [fst kv] (snd kv)
  | JObj _ => build [fst kv] (snd kv)
  | _ => [(Str.trim (fst kv), snd kv)]
  end.

(** The parameters axios renders into the query string. It skips the
    entries whose value is [null] or [undefined]; an empty array and an
    empty object give nothing either. *)
Definition rendered (params : JValue) : list (string * JValue) :=
  match params with
  | JObj props => flat_map render_param props
  | _ => []
  end.

End Async.

(* ===================================================================== *)
(** * The server *)
(* ===================================================================== *)

Import JS Async.

(** What the handler sends: [res.status(code).json(body)]; [res.json(body)]
    leaves the code at 200. [body] is the object handed to [res.json]. *)
Record Reply : Type := mkReply { code : Z; body : JValue }.

Definition res_status_json (code : Z) (body : JValue) : Reply := mkReply code body.
Definition res_json (body : JValue) : Reply := mkReply 200 body.

Definition API_BASE_URL : string := "https://public.opendatasoft.com/api/explore/v2.1".
Definition DATASET_ID : string := "us-colleges-and-universities".

(** [`${API_BASE_URL}/catalog/datasets/${DATASET_ID}/records`] *)
Definition records_url : string :=
  API_BASE_URL ++ "/catalog/datasets/" ++ DATASET_ID ++ "/records".

(** [function formatError(message, status = 400)] *)
Definition formatError (message status : JValue) : JValue :=
  let status := match status with JUndefined => JInt 400 | _ => status end in
  JObj [("success", JBool false);
        ("error", JObj [("message", message); ("status", status)])].

(** [error.response] *)
Definition error_response (error : Thrown) : option AxiosResponse :=
  match error with
  | AxiosError response => response
  | TypeError | Error _ => None
  end.

(** [error.response?.status] *)
Definition error_response_status (error : Thrown) : JValue :=
  match error_response error with
  | Some response => JInt (status response)
  | None => JUndefined
  end.

(** [error.response?.data?.message] *)
Definition error_response_data_message (error : Thrown) : JValue :=
  match error_response error with
  | Some response => opt (data response) "message"
  | None => JUndefined
  end.

(** The statement every [catch] block ends with:
    [res.status(500).json(formatError(error.response?.data?.message || fallback,
                                      error.response?.status || 500))] *)
Definition upstream_failure (fallback : string) (error : Thrown) : Reply :=
  res_status_json 500
    (formatError (or_else (error_response_data_message error) (JStr fallback))
                 (or_else (error_response_status error) (JInt 500))).

(** [response.data.results && response.data.results.length > 0] *)
Definition has_results (response : AxiosResponse) : Completion bool :=
  results <- get (data response) "results" ;;
  if truthy results then
    len <- get results "length" ;; gt len (of_Z 0)
  else ret false.

(** [xs.map(f)] with a callback that may throw. *)
Fixpoint Array_map {A B} (f : A -> Completion B) (xs : list A) : Completion (list B) :=
  match xs with
  | [] => ret []
  | x :: rest => y <- f x ;; ys <- Array_map f rest ;; ret (y :: ys)
  end.

(** ** [POST /search] *)

Definition search (req_body : JValue) : Async Reply :=
  catch
    (query <- sync (get_default req_body "query" (JStr "")) ;;
     state <- sync (get_default req_body "state" (JStr "")) ;;
     city <- sync (get_default req_body "city" (JStr "")) ;;
     limit <- sync (get_default req_body "limit" (JInt 10)) ;;
     offset <- sync (get_default req_body "offset" (JInt 0)) ;;
     too_many <- sync (gt limit (of_Z 100)) ;;
     if too_many : bool then
       ret (res_status_json 400 (formatError (JStr "Limit cannot exceed 100") JUndefined))
     else
       on_state <- (if truthy state
                    then s <- sync (ToString state) ;; ret ["state = '" ++ s ++ "'"]
                    else ret []) ;;
       on_city <- (if truthy city
                   then s <- sync (ToString city) ;; ret ["city = '" ++ s ++ "'"]
                   else ret []) ;;
       let whereClause := (on_state ++ on_city)%list in
       let params :=
         [("limit", limit);
          ("offset", offset);
          ("where", if (0 <? List.length whereClause)%nat
                    then JStr (Str.join " AND " whereClause)
                    else JUndefined)] in
       let params := if truthy query then (params ++ [("q", query)])%list else params in
       response <- axios_get records_url (JObj params) ;;
       total <- sync (get (data response) "total_count") ;;
       ret (res_json
              (JObj [("success", JBool true);
                     ("data", data response);
                     ("metadata",
                      JObj [("total", total);
                            ("offset", offset);
                            ("limit", limit);
                            ("query_parameters",
                             JObj [("query", query); ("state", state); ("city", city)])])])))
    (fun error => ret (upstream_failure "Failed to search universities" error)).

(** ** [GET /getUniversity]

    The logging statements are left out. One of them,
    [JSON.stringify(response.data).substring(0, 300)], throws a [TypeError]
    when [response.data] is [undefined], and so does the read of
    [response.data.results] that follows it, into the same [catch]. *)

Definition getUniversity (req_query : JValue) : Async Reply :=
  catch
    (id <- sync (get req_query "id") ;;
     if negb (truthy id) then
       ret (res_status_json 400 (formatError (JStr "University ID is required") JUndefined))
     else
       id_text <- sync (ToString id) ;;
       let params := [("where", JStr ("objectid = '" ++ id_text ++ "'")); ("limit", JInt 1)] in
       response <- axios_get records_url (JObj params) ;;
       found <- sync (has_results response) ;;
       if found : bool then
         results <- sync (get (data response) "results") ;;
         first <- sync (get results "0") ;;
         ret (res_json (JObj [("success", JBool true); ("data", first)]))
       else
         ret (res_status_json 404 (formatError (JStr "University not found") (JInt 404))))
    (fun error =>
       if strict_equals (error_response_status error) (JInt 404) then
         ret (res_status_json 404 (formatError (JStr "University not found") (JInt 404)))
       else
         ret (upstream_failure "Failed to fetch university details" error)).

(** ** [GET /getUniversityByName] *)

Definition getUniversityByName (req_query : JValue) : Async Reply :=
  catch
    (name <- sync (get req_query "name") ;;
     if negb (truthy name) then
       ret (res_status_json 400 (formatError (JStr "University name is required") JUndefined))
     else
       name_text <- sync (ToString name) ;;
       let params := [("where", JStr ("name = '" ++ name_text ++ "'")); ("limit", JInt 1)] in
       response <- axios_get records_url (JObj params) ;;
       found <- sync (has_results response) ;;
       if found : bool then
         results <- sync (get (data response) "results") ;;
         first <- sync (get results "0") ;;
         ret (res_json (JObj [("success", JBool true); ("data", first)]))
       else
         ret (res_status_json 404 (formatError (JStr "University not found") (JInt 404))))
    (fun error => ret (upstream_failure "Failed to fetch university details" error)).

(** ** [GET /getFields] *)

(** The callback of [Object.keys(sampleRecord).map(key => ...)]. *)
Definition field_of (sampleRecord : JValue) (key : string) : Completion JValue :=
  value <- get sampleRecord key ;;
  let type := typeof value in
  type <- (if Str.includes key "date" || Str.includes key "time" then ret "date"
           else
             n <- ToNumber value ;;
             if negb (isNaN n) then ret "number" else ret type) ;;
  ret (JObj [("name", JStr key);
             ("type", JStr type);
             ("description", JStr (Str.replace_all "_" " " key))]).

Definition getFields : Async Reply :=
  catch
    (response <- axios_get records_url (JObj [("limit", JInt 1)]) ;;
     found <- sync (has_results response) ;;
     if found : bool then
       results <- sync (get (data response) "results") ;;
       sampleRecord <- sync (get results "0") ;;
       keys <- sync (Object_keys sampleRecord) ;;
       fields <- sync (Array_map (field_of sampleRecord) keys) ;;
       ret (res_json (JObj [("success", JBool true); ("data", JArr fields)]))
     else
       raise (Error "No sample records found to determine fields"))
    (fun error => ret (upstream_failure "Failed to fetch dataset fields" error)).

(** ** [POST /statistics] *)

Definition validAggregations : list string := ["count"; "sum"; "avg"; "min"; "max"].

(** The callback of [Object.entries(filter).map(([key, value]) => ...)]. *)
Definition filter_clause (entry : string * JValue) : Completion string :=
  let '(key, value) := entry in
  if String.eqb (typeof value) "string"
  then text <- ToString value ;; ret (key ++ " = '" ++ text ++ "'")
  else text <- ToString value ;; ret (key ++ " = " ++ text).

(** The [selectClause] of the handler, from [aggregation] and [field]. *)
Definition selectClause (aggregation field : JValue) : Completion string :=
  if strict_equals aggregation (JStr "count") then ret "count(*) as count"
  else
    agg <- ToString aggregation ;;
    fld <- ToString field ;;
    alias <- ToString (if strict_equals aggregation (JStr "avg")
                       then JStr "average" else aggregation) ;;
    ret (agg ++ "(int(" ++ fld ++ ")) as " ++ alias).

Definition statistics (req_body : JValue) : Async Reply :=
  catch
    (field <- sync (get req_body "field") ;;
     aggregation <- sync (get req_body "aggregation") ;;
     groupBy <- sync (get req_body "groupBy") ;;
     filter <- sync (get req_body "filter") ;;
     if negb (truthy field) || negb (truthy aggregation) then
       ret (res_status_json 400
              (formatError (JStr "Field and aggregation are required") JUndefined))
     else if negb (Array_includes (map JStr validAggregations) aggregation) then
       ret (res_status_json 400
              (formatError
                 (JStr ("Invalid aggregation. Must be one of: "
                        ++ Str.join ", " validAggregations))
                 JUndefined))
     else
       selectClause <- sync (selectClause aggregation field) ;;
       filtered <- (if truthy filter
                    then keys <- sync (Object_keys filter) ;;
                         ret (0 <? List.length keys)%nat
                    else ret false) ;;
       whereClause <-
         (if filtered : bool
          then entries <- sync (Object_entries filter) ;;
               clauses <- sync (Array_map filter_clause entries) ;;
               ret (Str.join " AND " clauses)
          else ret "") ;;
       let params := [("select", JStr selectClause)] in
       let params := if truthy groupBy then (params ++ [("group_by", groupBy)])%list else params in
       let params := if truthy (JStr whereClause)
                     then (params ++ [("where", JStr whereClause)])%list else params in
       response <- axios_get records_url (JObj params) ;;
       ret (res_json
              (JObj [("success", JBool true);
                     ("data", data response);
                     ("metadata",
                      JObj [("field", field);
                            ("aggregation", aggregation);
                            ("groupBy", groupBy);
                            ("filter", filter)])])))
    (fun error => ret (upstream_failure "Failed to calculate statistics" error)).

(** ** The routes

    The two remaining routes, [GET /] and [GET /schema], send a constant
    document and never an envelope. *)

Inductive Request : Type :=
| POST_search (req_body : JValue)
| GET_getUniversity (req_query : JValue)
| GET_getUniversityByName (req_query : JValue)
| GET_getFields
| POST_statistics (req_body : JValue).

Definition server (request : Request) : Async Reply :=
  match request with
  | POST_search req_body => search req_body
  | GET_getUniversity req_query => getUniversity req_query
  | GET_getUniversityByName req_query => getUniversityByName req_query
  | GET_getFields => getFields
  | POST_statistics req_body => statistics req_body
  end.

(* ===================================================================== *)
(** * Vocabulary of the specification *)
(* ===================================================================== *)

(** A value whose properties can be read: anything but [null] and
    [undefined]. With body-parser in front of the handlers [req.body] is
    such a value (an empty object when the request carries no JSON), and so
    is the [req.query] express builds. *)
Definition readable (v : JValue) : Prop := v <> JUndefined /\ v <> JNull.

(** A scalar: a boolean, a number or a text. *)
Definition scalar (v : JValue) : Prop :=
  match v with
  | JBool _ | JNum _ | JStr _ => True
  | _ => False
  end.

(** An optional text input: a string, or nothing. *)
Definition text_or_absent (v : JValue) : Prop :=
  v = JUndefined \/ exists s, v = JStr s.

Definition as_text (v : JValue) : string :=
  match v with JStr s => s | _ => "" end.

(** The failure envelope [{success: false, error: {message, status}}]. *)
Definition is_failure (r : Reply) : Prop := opt (body r) "success" = JBool false.
Definition error_status (r : Reply) : JValue := opt (opt (body r) "error") "status".
Definition error_message (r : Reply) : JValue := opt (opt (body r) "error") "message".

(** The generic message of each route's [catch] block. *)
Definition generic_message (request : Request) : string :=
  match request with
  | POST_search _ => "Failed to search universities"
  | GET_getUniversity _ | GET_getUniversityByName _ => "Failed to fetch university details"
  | GET_getFields => "Failed to fetch dataset fields"
  | POST_statistics _ => "Failed to calculate statistics"
  end.

(** The lookup by id, the one route whose [catch] block looks at the
    upstream status. *)
Definition is_lookup_by_id (request : Request) : bool :=
  match request with
  | GET_getUniversity _ => true
  | _ => false
  end.

Definition not_found : Reply :=
  mkReply 404
    (JObj [("success", JBool false);
           ("error", JObj [("message", JStr "University not found");
                           ("status", JInt 404)])]).

(** What the handling of a request comes to, seen from the envelope: either
    no call was issued, or one was and it resolved, and then a failure
    envelope carries the HTTP status; or the one call was rejected, and the
    reply is that of the [catch] block. *)
Definition settled (upstream : Upstream) (request : Request)
    (calls : list (string * JValue)) (reply : Reply) : Prop :=
  calls = [] /\ (is_failure reply -> error_status reply = JInt (code reply))
  \/ exists url params,
       calls = [(url, params)]
       /\ match upstream url params with
          | Resolved _ => is_failure reply -> error_status reply = JInt (code reply)
          | Rejected response =>
              reply =
                if is_lookup_by_id request
                   && match response with
                      | Some r => (status r =? 404)%Z
                      | None => false
                      end
                then not_found
                else upstream_failure (generic_message request) (AxiosError response)
          end.

(** The filter expression the specification gives for a state and a city. *)
Definition where_of (state city : string) : option string :=
  match state, city with
  | EmptyString, EmptyString => None
  | _, EmptyString => Some ("state = '" ++ state ++ "'")
  | EmptyString, _ => Some ("city = '" ++ city ++ "'")
  | _, _ => Some ("state = '" ++ state ++ "' AND city = '" ++ city ++ "'")
  end.

(** The free-text parameter the specification gives for a query. *)
Definition q_of (query : string) : option string :=
  match query with
  | EmptyString => None
  | _ => Some query
  end.

(** The select expression the specification gives for an aggregation kind
    and the text of a field. *)
Definition select_of (aggregation field : string) : string :=
  if String.eqb aggregation "count" then "count(*) as count"
  else if String.eqb aggregation "avg" then "avg(int(" ++ field ++ ")) as average"
  else aggregation ++ "(int(" ++ field ++ ")) as " ++ aggregation.

(** A message that names each of the five aggregation kinds. *)
Definition lists_valid_aggregations (message : JValue) : Prop :=
  exists s, message = JStr s
            /\ Forall (fun a => Str.includes s a = true) validAggregations.

(** [p] occurs in [s]. *)
Definition contains (s p : string) : Prop := exists a b, s = a ++ p ++ b.

(** [v] parses as a number, in the words of the specification: it is a
    number, or a text that holds a numeric literal. *)
Definition parses_as_number (v : JValue) : Prop :=
  match v with
  | JNum n => n <> NaN
  | JStr s => Str.trim s <> EmptyString /\ StringToNumber s <> NaN
  | _ => False
  end.

(** The values that hold no number and that the conversion to a number
    accepts all the same: [null], a boolean, an empty or blank text, and an
    array whose text (its elements joined by commas) is blank or a numeric
    literal. *)
Definition converted_to_number (v : JValue) : Prop :=
  match v with
  | JNull | JBool _ => True
  | JStr s => Str.trim s = EmptyString
  | JArr _ => exists text, ToString v = Normal text /\ StringToNumber text <> NaN
  | _ => False
  end.

(** The priority order of the type inference: by name first, then by
    value, then the runtime type; [as_number] tells which values count as
    numbers. *)
Definition inferred_type_with (as_number : JValue -> Prop)
    (key : string) (value : JValue) (type : string) : Prop :=
  (contains key "date" \/ contains key "time") /\ type = "date"
  \/ ~ (contains key "date" \/ contains key "time")
     /\ as_number value /\ type = "number"
  \/ ~ (contains key "date" \/ contains key "time")
     /\ ~ as_number value /\ type = typeof value.

(** The type the specification infers for a field: a number is a value
    that parses as one. *)
Definition inferred_type : string -> JValue -> string -> Prop :=
  inferred_type_with parses_as_number.

(** The type field discovery gives: the converted values count as numbers
    too. *)
Definition discovered_type : string -> JValue -> string -> Prop :=
  inferred_type_with (fun v => parses_as_number v \/ converted_to_number v).

(** [description] is [key] with each underscore turned into a space. *)
Definition underscores_to_spaces (key description : string) : Prop :=
  String.length description = String.length key
  /\ forall i,
       String.get i description =
         match String.get i key with
         | Some c => Some (if Ascii.eqb c "_" then " "%char else c)
         | None => None
         end.

(** The descriptor of one field of a sample record, for a given inference
    of its type. *)
Definition describes_with (typing : string -> JValue -> string -> Prop)
    (entry : string * JValue) (descriptor : JValue) : Prop :=
  exists type description,
    descriptor = JObj [("name", JStr (fst entry));
                       ("type", JStr type);
                       ("description", JStr description)]
    /\ typing (fst entry) (snd entry) type
    /\ underscores_to_spaces (fst entry) description.

(** The descriptor the specification gives a field. *)
Definition describes : string * JValue -> JValue -> Prop := describes_with inferred_type.

(** ** Sample upstreams and requests *)

Definition resolves_with (payload : JValue) : Upstream :=
  fun _ _ => Resolved (mkAxiosResponse 200 payload).

Definition rejects_with (response : option AxiosResponse) : Upstream :=
  fun _ _ => Rejected response.

Definition sample_record : JValue :=
  JObj [("name", JStr "Foo U");
        ("enrollment_date", JStr "2020-01-01");
        ("objectid", JStr "5")].

Definition sample_payload : JValue :=
  JObj [("total_count", JInt 712); ("results", JArr [sample_record])].

Definition empty_payload : JValue :=
  JObj [("total_count", JInt 0); ("results", JArr [])].

(** Symbolic execution of a handler body: the monadic plumbing unfolds, the
    coercions stay folded until their results are known. *)
Ltac exec :=
  cbn [bind ret catch raise Monad_Async Exception_Async Async_bind try_catch
       sync run axios_get Monad_Completion Completion_bind
       res_status_json res_json fst snd].

(** One step of symbolic execution: case analysis on the result the body
    is waiting for. *)
Ltac branch_on t :=
  lazymatch t with
  | try_catch ?b _ => branch_on b
  | Async_bind ?c _ => branch_on c
  | sync ?c => destruct c eqn:?
  | (if ?b then _ else _) => destruct b eqn:?
  | (match ?r with Resolved _ => _ | Rejected _ => _ end) => destruct r eqn:?
  end.

Ltac branch :=
  match goal with |- context [run _ ?t] => branch_on t end; exec.

Ltac explore := exec; repeat branch.

(** A leaf of the exploration of a handler, for [settled]; [status_is_404]
    is the lemma that reads the test of the lookup by id. *)
Ltac settle status_is_404 :=
  first
    [ left; split; [reflexivity |];
      intros Hfail; first [reflexivity | cbv in Hfail; discriminate Hfail]
    | right; do 2 eexists; split; [reflexivity |];
      match goal with
      | H : ?upstream ?u ?p = _ |- context [?upstream ?u ?p] => rewrite H
      end;
      first
        [ intros Hfail; first [reflexivity | cbv in Hfail; discriminate Hfail]
        | reflexivity
        | match goal with
          | H : strict_equals _ _ = _ |- _ =>
              rewrite status_is_404 in H; cbn [is_lookup_by_id andb];
              rewrite H; reflexivity
          end ] ].

(* ===================================================================== *)
(** * Further vocabulary *)
(* ===================================================================== *)

(** What express hands to the handler of a request: [req.body] for the
    POST routes, [req.query] for the lookups. *)
Definition request_input (request : Request) : option JValue :=
  match request with
  | POST_search req_body | POST_statistics req_body => Some req_body
  | GET_getUniversity req_query | GET_getUniversityByName req_query => Some req_query
  | GET_getFields => None
  end.

(** The failure envelope with a text message. *)
Definition failure (code : Z) (message : string) (status : Z) : Reply :=
  mkReply code
    (JObj [("success", JBool false);
           ("error", JObj [("message", JStr message); ("status", JInt status)])]).

(** A filter value the upstream language has a literal for: a text or a
    number. *)
Definition literal (v : JValue) : Prop :=
  match v with
  | JStr _ | JNum _ => True
  | _ => False
  end.

(** The clause of one filter entry: the text quoted, the number bare. *)
Definition clause_of (entry : string * JValue) : string :=
  match snd entry with
  | JStr s => fst entry ++ " = '" ++ s ++ "'"
  | JNum n => fst entry ++ " = " ++ Number_toString n
  | _ => EmptyString
  end.

(* ===================================================================== *)
(** * The static routes and the routing table *)
(* ===================================================================== *)

(** The document of [GET /]. *)
Definition root_document : JValue :=
  JObj [("name", JStr "University Data MCP API");
        ("description", JStr "A Machine Controllable Program (MCP) for querying university data");
        ("version", JStr "1.0.0");
        ("documentation", JStr "/schema");
        ("status", JStr "operational")].

(** One parameter of the schema: [{type, description, required}]. *)
Definition parameter (type description : string) (required : bool) : JValue :=
  JObj [("type", JStr type);
        ("description", JStr description);
        ("required", JBool required)].

(** One endpoint of the schema. *)
Definition endpoint (path method description : string)
    (parameters : list (string * JValue)) (returns_type returns_description : string) : JValue :=
  JObj [("path", JStr path);
        ("method", JStr method);
        ("description", JStr description);
        ("parameters", JObj parameters);
        ("returns", JObj [("type", JStr returns_type);
                          ("description", JStr returns_description)])].

(** The document of [GET /schema]. *)
Definition schema : JValue :=
  JObj [("name", JStr "UniversityDataMCP");
        ("description", JStr "An MCP for querying university data from the OpenDataSoft API");
        ("version", JStr "1.0.0");
        ("endpoints",
         JArr [endpoint "/search" "POST" "Search for universities based on criteria"
                 [("query", parameter "string" "Full-text search query" false);
                  ("state", parameter "string" "Filter by state (e.g., 'CA', 'NY')" false);
                  ("city", parameter "string" "Filter by city name" false);
                  ("limit", parameter "number"
                     "Maximum number of results to return (default: 10, max: 100)" false);
                  ("offset", parameter "number"
                     "Number of results to skip (for pagination)" false)]
                 "object" "Search results including university records";
               endpoint "/getFields" "GET" "Get all available fields in the university dataset"
                 []
                 "array" "List of available fields and their descriptions";
               endpoint "/statistics" "POST" "Get statistical information about universities"
                 [("field", parameter "string"
                     "Field to analyze (e.g., 'objectid', 'population')" true);
                  ("aggregation", parameter "string"
                     "Type of aggregation (count, sum, avg, min, max)" true);
                  ("groupBy", parameter "string"
                     "Field to group by (e.g., 'state', 'city')" false);
                  ("filter", parameter "object" "Filter conditions to apply" false)]
                 "object" "Statistical results";
               endpoint "/getUniversityByName" "GET"
                 "Get details for a specific university by name"
                 [("name", parameter "string" "University name" true)]
                 "object" "Detailed university information"])].

(** A handler, given [req.query] and [req.body]. *)
Definition Handler : Type := JValue -> JValue -> Async Reply.

(** The routes of the application, in the order they are registered:
    [app.get(path, handler)] and [app.post(path, handler)]. *)
Definition routes : list (string * string * Handler) :=
  [("GET", "/", fun _ _ => ret (res_json root_document));
   ("GET", "/schema", fun _ _ => ret (res_json schema));
   ("POST", "/search", fun _ req_body => search req_body);
   ("GET", "/getUniversity", fun req_query _ => getUniversity req_query);
   ("GET", "/getUniversityByName", fun req_query _ => getUniversityByName req_query);
   ("GET", "/getFields", fun _ _ => getFields);
   ("POST", "/statistics", fun _ req_body => statistics req_body)].

(** The handler registered for a method and a path: the first one. *)
Fixpoint route_in (table : list (string * string * Handler)) (method path : string)
  : option Handler :=
  match table with
  | [] => None
  | (m, p, handler) :: rest =>
      if String.eqb m method && String.eqb p path then Some handler
      else route_in rest method path
  end.

Definition route (method path : string) : option Handler := route_in routes method path.

(** Where the parameters of a request travel: the body of a POST, the
    query string of a GET. *)
Definition input_of (method : string) (req_query req_body : JValue) : JValue :=
  if String.eqb method "POST" then req_body else req_query.

(* ===================================================================== *)
(** * The client library *)
(* ===================================================================== *)

Module Client.
Import JS.

(** ** [JSON.stringify] *)

Definition double_quote : ascii := ascii_of_nat 34.

Definition hex_digit (digits : string) (n : nat) : ascii :=
  match String.get n digits with
  | Some c => c
  | None => "0"%char
  end.

(** The escape of one code unit in [QuoteJSONString]. *)
Definition escape (c : ascii) : string :=
  let n := nat_of_ascii c in
  if (n =? 34)%nat then String "\" (String double_quote EmptyString)
  else if (n =? 92)%nat then "\\"
  else if (n =? 8)%nat then "\b"
  else if (n =? 12)%nat then "\f"
  else if (n =? 10)%nat then "\n"
  else if (n =? 13)%nat then "\r"
  else if (n =? 9)%nat then "\t"
  else if (n <? 32)%nat then
    "\u00" ++ String (hex_digit "0123456789abcdef" (n / 16))
                (String (hex_digit "0123456789abcdef" (n mod 16)) EmptyString)
  else String c EmptyString.

Fixpoint escape_all (s : string) : string :=
  match s with
  | EmptyString => EmptyString
  | String c s' => escape c ++ escape_all s'
  end.

Definition QuoteJSONString (s : string) : string :=
  String double_quote (escape_all s ++ String double_quote EmptyString).

(** [JSON.stringify(v)], [None] standing for [undefined]. A property whose
    value is [undefined] is left out, an [undefined] element of an array is
    written [null], and so is a number that is not finite. *)
Fixpoint JSON_stringify (v : JValue) : option string :=
  match v with
  | JUndefined => None
  | JNull => Some "null"
  | JBool b => Some (if b then "true" else "false")
  | JNum (Fin q) => Some (Number_toString (Fin q))
  | JNum _ => Some "null"
  | JStr s => Some (QuoteJSONString s)
  | JArr items =>
      let element x :=
        match JSON_stringify x with
        | Some s => s
        | None => "null"
        end in
      Some ("[" ++ Str.join "," (map element items) ++ "]")
  | JObj props =>
      let member kv :=
        match JSON_stringify (snd kv) with
        | Some s => [QuoteJSONString (fst kv) ++ ":" ++ s]
        | None => []
        end in
      Some ("{" ++ Str.join "," (flat_map member props) ++ "}")
  end.

(** ** [encodeURIComponent] *)

(** The characters [encodeURIComponent] leaves as they are: letters,
    digits and [- _ . ! ~ * ' ( )]. *)
Definition unreserved (c : ascii) : bool :=
  let n := nat_of_ascii c in
  ((48 <=? n) && (n <=? 57) || (65 <=? n) && (n <=? 90) || (97 <=? n) && (n <=? 122)
   || Str.includes "-_.!~*'()" (String c EmptyString))%nat.

(** One octet, percent-encoded. *)
Definition percent (octet : nat) : string :=
  String "%" (String (hex_digit "0123456789ABCDEF" (octet / 16))
                (String (hex_digit "0123456789ABCDEF" (octet mod 16)) EmptyString)).

(** A code unit below 128 is one octet of UTF-8, one from 128 to 255 is
    two. *)
Definition encode_unit (c : ascii) : string :=
  let n := nat_of_ascii c in
  if unreserved c then String c EmptyString
  else if (n <? 128)%nat then percent n
  else percent (192 + n / 64) ++ percent (128 + n mod 64).

Fixpoint encode (s : string) : string :=
  match s with
  | EmptyString => EmptyString
  | String c s' => encode_unit c ++ encode s'
  end.

(** [encodeURIComponent(v)] *)
Definition encodeURIComponent (v : JValue) : Completion string :=
  s <- ToString v ;; ret (encode s).

(** ** Requests *)

(** What a method of the client can throw: the [Error] it builds from the
    reply of the server, a [TypeError] of its own evaluation, the
    [SyntaxError] of [response.json()] on a body that is not JSON, and the
    rejection of [fetch] itself. *)
Inductive Failure : Type :=
| ThrownError (message : string)
| ThrownTypeError
| ThrownSyntaxError
| FetchRejected.

(** How [fetch] settles: with a response, of which the client reads [ok]
    and the body as [response.json()] gives it ([None] when the body is
    not JSON), or not at all. *)
Inductive FetchResult : Type :=
| Fetched (ok : bool) (json : option JValue)
| NotFetched.

(** The body of an [async] method: it returns, throws, or awaits
    [fetch(url, options)]. *)
Inductive Fetching (A : Type) : Type :=
| Done (a : A)
| Failed (e : Failure)
| Fetch (url : string) (options : JValue) (k : FetchResult -> Fetching A).
Arguments Done {A} a.
Arguments Failed {A} e.
Arguments Fetch {A} url options k.

Fixpoint Fetching_bind {A B} (c : Fetching A) (f : A -> Fetching B) : Fetching B :=
  match c with
  | Done a => f a
  | Failed e => Failed e
  | Fetch url options k => Fetch url options (fun r => Fetching_bind (k r) f)
  end.

Fixpoint Fetching_catch {A} (body : Fetching A) (handler : Failure -> Fetching A) : Fetching A :=
  match body with
  | Done a => Done a
  | Failed e => handler e
  | Fetch url options k => Fetch url options (fun r => Fetching_catch (k r) handler)
  end.

#[export] Instance Monad_Fetching : Monad Fetching :=
  {| ret := @Done; bind := @Fetching_bind |}.

#[export] Instance Exception_Fetching : MonadExc Failure Fetching :=
  {| raise := @Failed; catch := @Fetching_catch |}.

Definition Fetching_sync {A} (c : Completion A) : Fetching A :=
  match c with
  | Normal a => Done a
  | ThrowTypeError => Failed ThrownTypeError
  end.

(** [const response = await fetch(url, options);
     const result = await response.json();]
    giving [response.ok] and [result]. *)
Definition fetch_json (url : string) (options : JValue) : Fetching (bool * JValue) :=
  Fetch url options (fun r =>
    match r with
    | Fetched ok (Some result) => Done (ok, result)
    | Fetched _ None => Failed ThrownSyntaxError
    | NotFetched => Failed FetchRejected
    end).

Definition Network : Type := string -> JValue -> FetchResult.

Fixpoint Fetching_run {A} (network : Network) (c : Fetching A) : list (string * JValue) * (A + Failure) :=
  match c with
  | Done a => ([], inl a)
  | Failed e => ([], inr e)
  | Fetch url options k =>
      let '(fetched, result) := Fetching_run network (k (network url options)) in
      ((url, options) :: fetched, result)
  end.

(** ** The class *)

(** [constructor(baseUrl = 'http://localhost:3000')]: the client is its
    [baseUrl]. *)
Definition UniversityDataClient (baseUrl : JValue) : JValue :=
  default_to (JStr "http://localhost:3000") baseUrl.

(** [async _request(endpoint, method = 'GET', data = null)]; the [catch]
    block logs the error and throws it again. *)
Definition _request (this_baseUrl : JValue) (endpoint : string) (method data : JValue)
  : Fetching JValue :=
  let method := default_to (JStr "GET") method in
  let data := default_to JNull data in
  base <- Fetching_sync (ToString this_baseUrl) ;;
  let url := base ++ endpoint in
  let options :=
    [("method", method);
     ("headers", JObj [("Content-Type", JStr "application/json");
                       ("Accept", JStr "application/json")])] in
  let options :=
    if truthy data && strict_equals method (JStr "POST")
    then (options ++ [("body", match JSON_stringify data with
                               | Some text => JStr text
                               | None => JUndefined
                               end)])%list
    else options in
  catch
    ('(ok, result) <- fetch_json url (JObj options) ;;
     if negb ok then
       error <- Fetching_sync (get result "error") ;;
       message <- Fetching_sync (ToString (or_else (opt error "message") (JStr "Request failed"))) ;;
       raise (ThrownError message)
     else ret result)
    (fun error => raise error).

Definition getSchema (this_baseUrl : JValue) : Fetching JValue :=
  _request this_baseUrl "/schema" JUndefined JUndefined.

(** [async searchUniversities(params = {})] *)
Definition searchUniversities (this_baseUrl params : JValue) : Fetching JValue :=
  _request this_baseUrl "/search" (JStr "POST") (default_to (JObj []) params).

Definition getUniversity (this_baseUrl id : JValue) : Fetching JValue :=
  encoded <- Fetching_sync (encodeURIComponent id) ;;
  _request this_baseUrl ("/getUniversity?id=" ++ encoded) JUndefined JUndefined.

Definition getFields (this_baseUrl : JValue) : Fetching JValue :=
  _request this_baseUrl "/getFields" JUndefined JUndefined.

Definition getUniversityByName (this_baseUrl name : JValue) : Fetching JValue :=
  encoded <- Fetching_sync (encodeURIComponent name) ;;
  _request this_baseUrl ("/getUniversityByName?name=" ++ encoded) JUndefined JUndefined.

Definition getStatistics (this_baseUrl params : JValue) : Fetching JValue :=
  _request this_baseUrl "/statistics" (JStr "POST") params.

(** A call of one of the public methods. *)
Inductive Call : Type :=
| call_getSchema
| call_searchUniversities (params : JValue)
| call_getUniversity (id : JValue)
| call_getFields
| call_getUniversityByName (name : JValue)
| call_getStatistics (params : JValue).

Definition perform (this_baseUrl : JValue) (call : Call) : Fetching JValue :=
  match call with
  | call_getSchema => getSchema this_baseUrl
  | call_searchUniversities params => searchUniversities this_baseUrl params
  | call_getUniversity id => getUniversity this_baseUrl id
  | call_getFields => getFields this_baseUrl
  | call_getUniversityByName name => getUniversityByName this_baseUrl name
  | call_getStatistics params => getStatistics this_baseUrl params
  end.

(** The HTTP method, the path and the query string of a call, as the
    source writes them. *)
Definition method_of (call : Call) : string :=
  match call with
  | call_searchUniversities _ | call_getStatistics _ => "POST"
  | _ => "GET"
  end.

Definition path_of (call : Call) : string :=
  match call with
  | call_getSchema => "/schema"
  | call_searchUniversities _ => "/search"
  | call_getUniversity _ => "/getUniversity"
  | call_getFields => "/getFields"
  | call_getUniversityByName _ => "/getUniversityByName"
  | call_getStatistics _ => "/statistics"
  end.

End Client.

(** The query string a call of the client puts after its path. *)
Definition query_of (call : Client.Call) : Completion string :=
  match call with
  | Client.call_getUniversity id =>
      encoded <- Client.encodeURIComponent id ;; ret ("?id=" ++ encoded)
  | Client.call_getUniversityByName name =>
      encoded <- Client.encodeURIComponent name ;; ret ("?name=" ++ encoded)
  | _ => ret EmptyString
  end.

(** The parameters a call of the client sends as its body, if any. *)
Definition data_of (call : Client.Call) : JValue :=
  match call with
  | Client.call_searchUniversities params => default_to (JObj []) params
  | Client.call_getStatistics params => params
  | _ => JUndefined
  end.

(** The characters that delimit the parts of a URL and of its query. *)
Definition delimiters : list ascii :=
  ["&"; "="; "?"; "#"; "/"; "+"; " "; ":"; ";"; ","; "@"; "$"]%char.

(** Symbolic execution of a method of the client. *)
Ltac exec_client :=
  cbn [bind ret catch raise Client.Monad_Fetching Client.Exception_Fetching
       Client.Fetching_bind Client.Fetching_catch Client.Fetching_sync Client.Fetching_run Client.fetch_json
       Monad_Completion Completion_bind fst snd].

Ltac branch_client_on t :=
  lazymatch t with
  | Client.Fetching_catch ?b _ => branch_client_on b
  | Client.Fetching_bind ?c _ => branch_client_on c
  | Client.Fetching_sync ?c => destruct c eqn:?
  | (if ?b then _ else _) => destruct b eqn:?
  | (match ?r with Client.Fetched _ _ => _ | Client.NotFetched => _ end) =>
      let ok := fresh "ok" in
      let json := fresh "json" in
      destruct r as [ok [json |] |] eqn:?
  end.

Ltac branch_client :=
  match goal with |- context [Client.Fetching_run _ ?t] => branch_client_on t end; exec_client.

Ltac explore_client := exec_client; repeat branch_client.


(* ===================================================================== *)
(** * Properties *)
(* ===================================================================== *)

(** ** Reading a request *)

Lemma get_readable (v : JValue) (key : string) :
  readable v -> get v key = Normal (opt v key).
Proof.
  intros [Hu Hn]. unfold opt.
  destruct v; cbn; try congruence; destruct (String.eqb key "length"); reflexivity.
Qed.

Lemma readable_object (props : list (string * JValue)) : readable (JObj props).
Proof. split; discriminate. Qed.

Lemma get_default_readable (v : JValue) (key : string) (d : JValue) :
  readable v -> get_default v key d = Normal (default_to d (opt v key)).
Proof.
  intros H. unfold get_default. rewrite (get_readable v key H). reflexivity.
Qed.

Lemma readable_dec (v : JValue) : {readable v} + {v = JUndefined \/ v = JNull}.
Proof.
  unfold readable.
  destruct v; try (left; split; discriminate); right; auto.
Qed.

Lemma get_unreadable (v : JValue) (key : string) :
  v = JUndefined \/ v = JNull -> get v key = ThrowTypeError.
Proof. intros [-> | ->]; reflexivity. Qed.

Lemma opt_defined_readable (v : JValue) (key : string) :
  opt v key <> JUndefined -> readable v.
Proof.
  intros H. destruct (readable_dec v) as [Hr | Hr]; [exact Hr |].
  elim H. unfold opt. rewrite (get_unreadable v key Hr). reflexivity.
Qed.

Lemma default_to_defined (d x : JValue) : x <> JUndefined -> default_to d x = x.
Proof. destruct x; try reflexivity; congruence. Qed.

Lemma default_to_not_undefined (d x : JValue) :
  d <> JUndefined -> default_to d x <> JUndefined.
Proof. destruct x; cbn; congruence. Qed.

(** ** Strings *)

Lemma append_assoc (a b c : string) : (a ++ b) ++ c = a ++ b ++ c.
Proof. induction a as [| x a IH]; cbn; [reflexivity | now rewrite IH]. Qed.

(** ** Comparisons *)

Lemma gt_number (q : Q) (z : Z) :
  gt (JNum (Fin q)) (of_Z z) = Normal true <-> (inject_Z z < q)%Q.
Proof.
  cbn. split; intros H.
  - injection H as H. apply negb_true_iff in H.
    apply Qnot_le_lt. intros Hle. apply Qle_bool_iff in Hle. congruence.
  - f_equal. apply negb_true_iff. apply not_true_is_false. intros Hle.
    apply Qle_bool_iff in Hle. apply (Qlt_not_le _ _ H Hle).
Qed.

Lemma le_gt (v : JValue) (n : JNumber) :
  le v n = Normal true -> gt v n = Normal false.
Proof.
  unfold le, gt. cbn. destruct (ToNumber v) as [x |]; cbn; [| discriminate].
  intros H. injection H as H. f_equal.
  destruct x, n; cbn in *; try discriminate; try reflexivity.
  apply negb_true_iff in H. exact H.
Qed.

(** ** [POST /search]: validation *)

(** C4. A search request whose limit exceeds 100 is answered with status 400
    and the failure envelope, and no call to the upstream is issued. *)
Theorem search_limit_above_100_rejected :
  forall (upstream : Upstream) (req_body : JValue),
    gt (opt req_body "limit") (of_Z 100) = Normal true ->
    run upstream (search req_body) =
      ([], inl (mkReply 400
                  (JObj [("success", JBool false);
                         ("error", JObj [("message", JStr "Limit cannot exceed 100");
                                         ("status", JInt 400)])]))).
Proof.
  intros upstream req_body Hgt.
  assert (Hdef : opt req_body "limit" <> JUndefined).
  { intros E. rewrite E in Hgt. discriminate Hgt. }
  pose proof (opt_defined_readable _ _ Hdef) as Hr.
  unfold search.
  repeat (rewrite (get_default_readable _ _ _ Hr); exec).
  rewrite (default_to_defined _ _ Hdef), Hgt.
  exec. reflexivity.
Qed.

Lemma search_limit_above_100_rejected_witness :
  run (resolves_with sample_payload) (search (JObj [("state", JStr "CA"); ("limit", JInt 101)]))
  = ([], inl (mkReply 400
                (JObj [("success", JBool false);
                       ("error", JObj [("message", JStr "Limit cannot exceed 100");
                                       ("status", JInt 400)])]))).
Proof.
  apply search_limit_above_100_rejected. reflexivity.
Defined.

(** ** [POST /search]: the outbound call *)

(** The state and city clauses and the call they end up in, once the limit
    has passed validation. *)
Lemma text_or_absent_default (v : JValue) :
  text_or_absent v -> default_to (JStr "") v = JStr (as_text v).
Proof. intros [-> | [s ->]]; reflexivity. Qed.

Lemma search_call (upstream : Upstream) (req_body : JValue) :
  readable req_body ->
  text_or_absent (opt req_body "state") ->
  text_or_absent (opt req_body "city") ->
  gt (default_to (JInt 10) (opt req_body "limit")) (of_Z 100) = Normal false ->
  let state := as_text (opt req_body "state") in
  let city := as_text (opt req_body "city") in
  let query := default_to (JStr "") (opt req_body "query") in
  let params :=
    ([("limit", default_to (JInt 10) (opt req_body "limit"));
      ("offset", default_to (JInt 0) (opt req_body "offset"));
      ("where", match where_of state city with
                | Some w => JStr w
                | None => JUndefined
                end)]
     ++ (if truthy query then [("q", query)] else []))%list in
  fst (run upstream (search req_body)) = [(records_url, JObj params)].
Proof.
  intros Hr Hs Hc Hgt. unfold search.
  repeat (rewrite (get_default_readable _ _ _ Hr); exec).
  rewrite Hgt. exec.
  rewrite (text_or_absent_default _ Hs), (text_or_absent_default _ Hc).
  destruct (as_text (opt req_body "state")) as [| a s];
    destruct (as_text (opt req_body "city")) as [| b c];
    cbn [truthy Str.is_empty negb ToString]; exec;
    destruct (truthy (default_to (JStr "") (opt req_body "query")));
    exec; cbn [app List.length Nat.ltb Nat.leb where_of Str.join String.concat];
    (destruct (upstream _ _) as [response | response]; exec;
     [destruct (get (data response) "total_count"); exec |];
     rewrite ?append_assoc; reflexivity).
Qed.

Lemma lookup_app_l (key : string) (xs ys : list (string * JValue)) (v : JValue) :
  lookup key xs = Some v -> lookup key (xs ++ ys) = Some v.
Proof.
  induction xs as [| [k x] xs IH]; cbn; [discriminate |].
  destruct (String.eqb k key); auto.
Qed.

Lemma prefix_append (a b : string) : String.prefix a (a ++ b) = true.
Proof.
  induction a as [| c a IH]; cbn; [now destruct b |].
  destruct (ascii_dec c c) as [_ | H]; [exact IH | congruence].
Qed.

(** Whatever is rendered below a parameter carries the name of the
    parameter in front. *)
Lemma build_keys :
  forall (value : JValue) (first : string) (others : list string),
    Forall (fun entry => String.prefix (remove_brackets first) (fst entry) = true)
      (build (first :: others) value).
Proof.
  fix IH 1. intros value first others.
  assert (Hvisit : forall key leaf el,
             (forall others',
                 Forall (fun entry => String.prefix (remove_brackets first) (fst entry) = true)
                   (build (first :: others') el)) ->
             Forall (fun entry => String.prefix (remove_brackets first) (fst entry) = true)
               (match el with
                | JUndefined | JNull => []
                | JArr _ | JObj _ => build ((first :: others) ++ [key]) el
                | _ => [(render_key (first :: others) leaf, el)]
                end)).
  { intros key leaf el Hel.
    destruct el; try constructor; try constructor;
      try apply prefix_append; apply Hel. }
  destruct value as [| | b | n | s | items | props]; cbn [build]; try constructor.
  - generalize 0%nat.
    induction items as [| el items IHitems]; intros index; [constructor |].
    apply Forall_app. split; [| apply IHitems].
    apply Hvisit. intros others'. apply IH.
  - induction props as [| [key el] props IHprops]; [constructor |].
    cbn [flat_map fst snd]. apply Forall_app. split; [| apply IHprops].
    apply Hvisit. intros others'. apply IH.
Qed.

Lemma render_param_keys (key : string) (value : JValue) :
  Str.trim key = key ->
  remove_brackets key = key ->
  Forall (fun entry => String.prefix key (fst entry) = true) (render_param (key, value)).
Proof.
  intros Htrim Hkey. unfold render_param. cbn [fst snd]. rewrite Htrim, Hkey.
  pose proof (build_keys value key []) as Hbuild. rewrite Hkey in Hbuild.
  assert (Hself : String.prefix key key = true).
  { pose proof (prefix_append key EmptyString) as H.
    replace (key ++ EmptyString) with key in H; [exact H |].
    clear. induction key as [| c key IH]; cbn; congruence. }
  destruct value as [| | b | n | s | items | props].
  - constructor.
  - constructor.
  - repeat constructor. exact Hself.
  - repeat constructor. exact Hself.
  - repeat constructor. exact Hself.
  - destruct (forallb _ items); [| exact Hbuild].
    apply Forall_forall. intros entry Hin. apply in_map_iff in Hin.
    destruct Hin as [el [<- _]]. apply prefix_append.
  - exact Hbuild.
Qed.

Lemma lookup_skip (key : string) (entries rest : list (string * JValue)) :
  Forall (fun entry => String.eqb (fst entry) key = false) entries ->
  lookup key (entries ++ rest) = lookup key rest.
Proof.
  induction 1 as [| [k v] entries Hk _ IH]; [reflexivity |].
  cbn in *. now rewrite Hk.
Qed.

(** A parameter is rendered under names that begin with its own, so it
    hides no parameter whose name begins otherwise. *)
Lemma lookup_render_other (key other : string) (value : JValue)
    (rest : list (string * JValue)) :
  Str.trim key = key ->
  remove_brackets key = key ->
  String.prefix key other = false ->
  lookup other (render_param (key, value) ++ rest) = lookup other rest.
Proof.
  intros Htrim Hkey Hother. apply lookup_skip.
  pose proof (render_param_keys key value Htrim Hkey) as Hkeys.
  rewrite Forall_forall in *. intros entry Hin.
  destruct (String.eqb_spec (fst entry) other) as [E | _]; [| reflexivity].
  rewrite <- E, (Hkeys entry Hin) in Hother. discriminate Hother.
Qed.

Lemma rendered_cons (kv : string * JValue) (props : list (string * JValue)) :
  rendered (JObj (kv :: props)) = (render_param kv ++ rendered (JObj props))%list.
Proof. reflexivity. Qed.

Lemma lookup_render_scalar (key : string) (value : JValue) (rest : list (string * JValue)) :
  Str.trim key = key ->
  scalar value ->
  lookup key (render_param (key, value) ++ rest) = Some value.
Proof.
  intros Htrim Hscalar. unfold render_param. cbn [fst snd]. rewrite Htrim.
  destruct value; try contradiction; cbn; now rewrite String.eqb_refl.
Qed.

(** C9. A search request whose limit is at most 100 goes through whatever
    the sign or the integrality of its limit and offset: the one call issued
    is handed both as they came (10 and 0 when absent), and axios renders
    each of them under its own name when it is a scalar, as a number is. The
    state and the city are texts, as the interface declares them; nothing
    else is asked of the request. *)
Theorem search_forwards_limit_and_offset :
  forall (upstream : Upstream) (req_body : JValue),
    readable req_body ->
    text_or_absent (opt req_body "state") ->
    text_or_absent (opt req_body "city") ->
    let limit := default_to (JInt 10) (opt req_body "limit") in
    let offset := default_to (JInt 0) (opt req_body "offset") in
    le limit (of_Z 100) = Normal true ->
    exists params,
      fst (run upstream (search req_body)) = [(records_url, JObj params)]
      /\ lookup "limit" params = Some limit
      /\ lookup "offset" params = Some offset
      /\ (scalar limit -> lookup "limit" (rendered (JObj params)) = Some limit)
      /\ (scalar offset -> lookup "offset" (rendered (JObj params)) = Some offset).
Proof.
  intros upstream req_body Hr Hs Hc limit offset Hle.
  pose proof (search_call upstream req_body Hr Hs Hc (le_gt _ _ Hle)) as Hcall.
  cbv zeta in Hcall. fold limit offset in Hcall.
  eexists. split; [exact Hcall |].
  split; [reflexivity |]. split; [reflexivity |].
  cbn [app]. rewrite !rendered_cons.
  split; intros Hscalar.
  - apply lookup_render_scalar; [reflexivity | exact Hscalar].
  - rewrite lookup_render_other by reflexivity.
    apply lookup_render_scalar; [reflexivity | exact Hscalar].
Qed.

Lemma search_forwards_limit_and_offset_witness :
  exists params,
    fst (run (resolves_with empty_payload)
           (search (JObj [("limit", JNum (Fin (-3 # 2))); ("offset", JInt (-7))])))
    = [(records_url, JObj params)]
    /\ lookup "limit" params = Some (JNum (Fin (-3 # 2)))
    /\ lookup "offset" params = Some (JInt (-7))
    /\ (scalar (JNum (Fin (-3 # 2))) ->
        lookup "limit" (rendered (JObj params)) = Some (JNum (Fin (-3 # 2))))
    /\ (scalar (JInt (-7)) ->
        lookup "offset" (rendered (JObj params)) = Some (JInt (-7))).
Proof.
  apply (search_forwards_limit_and_offset (resolves_with empty_payload)
           (JObj [("limit", JNum (Fin (-3 # 2))); ("offset", JInt (-7))])).
  - apply readable_object.
  - left; reflexivity.
  - left; reflexivity.
  - reflexivity.
Defined.

(** C2. For a search request that reaches the upstream, the [where]
    parameter of the call is the AND-conjunction of the state clause and the
    city clause, each present exactly when its input is a non-empty string,
    and is not rendered at all when neither is; [q] is rendered exactly when
    the query is non-empty, and is the query. *)
Theorem search_where_and_q :
  forall (upstream : Upstream) (req_body : JValue),
    readable req_body ->
    text_or_absent (opt req_body "state") ->
    text_or_absent (opt req_body "city") ->
    text_or_absent (opt req_body "query") ->
    gt (default_to (JInt 10) (opt req_body "limit")) (of_Z 100) = Normal false ->
    let state := as_text (opt req_body "state") in
    let city := as_text (opt req_body "city") in
    let query := as_text (opt req_body "query") in
    exists params,
      fst (run upstream (search req_body)) = [(records_url, JObj params)]
      /\ lookup "where" (rendered (JObj params)) = option_map JStr (where_of state city)
      /\ lookup "q" (rendered (JObj params)) = option_map JStr (q_of query).
Proof.
  intros upstream req_body Hr Hs Hc Hq Hgt state city query.
  pose proof (search_call upstream req_body Hr Hs Hc Hgt) as Hcall.
  cbv zeta in Hcall. fold state city in Hcall.
  rewrite (text_or_absent_default _ Hq) in Hcall. fold query in Hcall.
  eexists. split; [exact Hcall |].
  cbn [app]. rewrite !rendered_cons.
  rewrite !(lookup_render_other "limit"), !(lookup_render_other "offset") by reflexivity.
  destruct (where_of state city); destruct query; split; reflexivity.
Qed.

Lemma search_where_and_q_witness :
  exists params,
    fst (run (resolves_with sample_payload)
           (search (JObj [("query", JStr "tech"); ("state", JStr "CA");
                          ("city", JStr "Davis")])))
    = [(records_url, JObj params)]
    /\ lookup "where" (rendered (JObj params))
       = Some (JStr "state = 'CA' AND city = 'Davis'")
    /\ lookup "q" (rendered (JObj params)) = Some (JStr "tech").
Proof.
  apply (search_where_and_q (resolves_with sample_payload)
           (JObj [("query", JStr "tech"); ("state", JStr "CA"); ("city", JStr "Davis")])).
  - apply readable_object.
  - right; exists "CA"; reflexivity.
  - right; exists "Davis"; reflexivity.
  - right; exists "tech"; reflexivity.
  - reflexivity.
Defined.

(** Without state and city the call has no [where] at all. *)
Example search_without_filters :
  map fst (rendered (snd (hd (EmptyString, JNull)
                            (fst (run (resolves_with sample_payload) (search (JObj [])))))))
  = ["limit"; "offset"].
Proof. reflexivity. Qed.

(** A limit that is an array and an offset that is an object pass the
    check on the limit, and are rendered under other names than theirs. *)
Example search_nested_limit_and_offset :
  rendered (snd (hd (EmptyString, JNull)
                   (fst (run (resolves_with sample_payload)
                           (search (JObj [("limit", JArr [JInt 5]);
                                          ("offset", JObj [("a", JInt 1)])]))))))
  = [("limit[]", JInt 5); ("offset[a]", JInt 1)].
Proof. reflexivity. Qed.

(** ** [POST /search]: the reply *)

(** C8. A search request that supplies only a state and a limit, and whose
    call the upstream answers with an object, is answered with the success
    envelope around that object, the metadata echoing the total of the
    payload, the limit, the state, and the defaults of what was not
    supplied. *)
Theorem search_state_and_limit_reply :
  forall (upstream : Upstream) (req_body state limit : JValue)
         (url : string) (params : JValue) (response : AxiosResponse),
    opt req_body "state" = state -> state <> JUndefined ->
    opt req_body "limit" = limit -> limit <> JUndefined ->
    opt req_body "query" = JUndefined ->
    opt req_body "city" = JUndefined ->
    opt req_body "offset" = JUndefined ->
    fst (run upstream (search req_body)) = [(url, params)] ->
    upstream url params = Resolved response ->
    readable (data response) ->
    snd (run upstream (search req_body)) =
      inl (mkReply 200
             (JObj [("success", JBool true);
                    ("data", data response);
                    ("metadata",
                     JObj [("total", opt (data response) "total_count");
                           ("offset", JInt 0);
                           ("limit", limit);
                           ("query_parameters",
                            JObj [("query", JStr "");
                                  ("state", state);
                                  ("city", JStr "")])])])).
Proof.
  intros upstream req_body state limit url params response
         Hstate Hs Hlimit Hl Hquery Hcity Hoffset Hcalls Hup Hdata.
  assert (Hr : readable req_body).
  { apply (opt_defined_readable _ "state"). congruence. }
  revert Hcalls. unfold search.
  repeat (rewrite (get_default_readable _ _ _ Hr); exec).
  rewrite Hstate, Hlimit, Hquery, Hcity, Hoffset.
  rewrite (default_to_defined _ _ Hs), (default_to_defined _ _ Hl).
  cbn [default_to truthy Str.is_empty negb].
  destruct (gt limit (of_Z 100)) as [[|] |]; exec; try discriminate.
  destruct (truthy state); exec;
    [destruct (ToString state) as [text |]; exec; try discriminate |];
    cbn [app List.length Nat.ltb Nat.leb];
    (match goal with
     | |- context [match upstream ?u ?p with _ => _ end] =>
         destruct (upstream u p) as [r | r] eqn:Hcall
     end; exec;
     [destruct (get (data r) "total_count") eqn:Htotal; exec |];
     intros Hcalls; inversion Hcalls; subst;
     try congruence;
     assert (r = response) as -> by congruence;
     rewrite (get_readable _ _ Hdata) in Htotal; try discriminate;
     injection Htotal as <-; reflexivity).
Qed.

Lemma search_state_and_limit_reply_witness :
  snd (run (resolves_with sample_payload)
         (search (JObj [("state", JStr "CA"); ("limit", JInt 5)])))
  = inl (mkReply 200
           (JObj [("success", JBool true);
                  ("data", sample_payload);
                  ("metadata",
                   JObj [("total", JInt 712);
                         ("offset", JInt 0);
                         ("limit", JInt 5);
                         ("query_parameters",
                          JObj [("query", JStr "");
                                ("state", JStr "CA");
                                ("city", JStr "")])])])).
Proof.
  apply (search_state_and_limit_reply
           (resolves_with sample_payload)
           (JObj [("state", JStr "CA"); ("limit", JInt 5)])
           (JStr "CA") (JInt 5)
           records_url
           (JObj [("limit", JInt 5); ("offset", JInt 0); ("where", JStr "state = 'CA'")])
           (mkAxiosResponse 200 sample_payload));
    try reflexivity; try discriminate.
  apply readable_object.
Defined.

(** ** The lookups *)

Lemma has_results_empty (response : AxiosResponse) :
  opt (data response) "results" = JArr [] -> has_results response = Normal false.
Proof.
  intros H. unfold has_results.
  rewrite (get_readable (data response) "results").
  - rewrite H. reflexivity.
  - apply (opt_defined_readable _ "results"). congruence.
Qed.

(** C7. A lookup by id, and likewise a lookup by name, whose call the
    upstream answers with zero records is answered 404 with the failure
    envelope and the message "University not found". *)
Theorem lookup_zero_records_not_found :
  forall (upstream : Upstream) (req_query : JValue)
         (url : string) (params : JValue) (response : AxiosResponse),
    upstream url params = Resolved response ->
    opt (data response) "results" = JArr [] ->
    let not_found :=
      mkReply 404
        (JObj [("success", JBool false);
               ("error", JObj [("message", JStr "University not found");
                               ("status", JInt 404)])]) in
    (fst (run upstream (getUniversity req_query)) = [(url, params)] ->
     snd (run upstream (getUniversity req_query)) = inl not_found)
    /\ (fst (run upstream (getUniversityByName req_query)) = [(url, params)] ->
        snd (run upstream (getUniversityByName req_query)) = inl not_found).
Proof.
  intros upstream req_query url params response Hup Hzero not_found.
  pose proof (has_results_empty response Hzero) as Hnone.
  split; [unfold getUniversity | unfold getUniversityByName];
    explore; intros Hcalls; try discriminate Hcalls;
    inversion Hcalls; subst; cbn [append] in *; try congruence;
    match goal with
    | H : has_results ?r = _ |- _ =>
        assert (r = response) as -> by congruence;
        first [reflexivity | congruence]
    end.
Qed.

Lemma lookup_zero_records_not_found_witness :
  snd (run (resolves_with empty_payload) (getUniversity (JObj [("id", JStr "42")])))
  = inl (mkReply 404
           (JObj [("success", JBool false);
                  ("error", JObj [("message", JStr "University not found");
                                  ("status", JInt 404)])]))
  /\ snd (run (resolves_with empty_payload)
            (getUniversityByName (JObj [("name", JStr "Foo U")])))
     = inl (mkReply 404
              (JObj [("success", JBool false);
                     ("error", JObj [("message", JStr "University not found");
                                     ("status", JInt 404)])])).
Proof.
  split.
  - apply (proj1 (lookup_zero_records_not_found
                    (resolves_with empty_payload) (JObj [("id", JStr "42")])
                    records_url
                    (JObj [("where", JStr "objectid = '42'"); ("limit", JInt 1)])
                    (mkAxiosResponse 200 empty_payload) eq_refl eq_refl)).
    reflexivity.
  - apply (proj2 (lookup_zero_records_not_found
                    (resolves_with empty_payload) (JObj [("name", JStr "Foo U")])
                    records_url
                    (JObj [("where", JStr "name = 'Foo U'"); ("limit", JInt 1)])
                    (mkAxiosResponse 200 empty_payload) eq_refl eq_refl)).
    reflexivity.
Defined.

(** C10. When the call of a lookup is rejected with an upstream response of
    status 404, the lookup by id answers 404 "University not found"; the
    lookup by name has no such case and answers through the generic failure
    path: HTTP 500, with the upstream message when there is one and
    "Failed to fetch university details" otherwise, and 404 as the status
    of the envelope. *)
Theorem lookup_upstream_404 :
  forall (upstream : Upstream) (req_query : JValue)
         (url : string) (params : JValue) (response : AxiosResponse),
    upstream url params = Rejected (Some response) ->
    status response = 404%Z ->
    (fst (run upstream (getUniversity req_query)) = [(url, params)] ->
     snd (run upstream (getUniversity req_query)) =
       inl (mkReply 404
              (JObj [("success", JBool false);
                     ("error", JObj [("message", JStr "University not found");
                                     ("status", JInt 404)])])))
    /\ (fst (run upstream (getUniversityByName req_query)) = [(url, params)] ->
        snd (run upstream (getUniversityByName req_query)) =
          inl (mkReply 500
                 (JObj [("success", JBool false);
                        ("error",
                         JObj [("message",
                                if truthy (opt (data response) "message")
                                then opt (data response) "message"
                                else JStr "Failed to fetch university details");
                               ("status", JInt 404)])]))).
Proof.
  intros upstream req_query url params [status data] Hup Hstatus.
  cbn in Hstatus. subst status.
  split; [unfold getUniversity | unfold getUniversityByName];
    explore; intros Hcalls; try discriminate Hcalls;
    inversion Hcalls; subst; cbn [append] in *; try congruence;
    match goal with
    | H : upstream _ _ = Rejected ?r |- _ =>
        assert (r = Some (mkAxiosResponse 404 data)) as -> by congruence
    end;
    first [ reflexivity
          | match goal with
            | H : strict_equals _ _ = false |- _ => vm_compute in H; discriminate H
            end ].
Qed.

Lemma lookup_upstream_404_witness :
  snd (run (rejects_with (Some (mkAxiosResponse 404 (JObj [("message", JStr "Unknown dataset")]))))
         (getUniversity (JObj [("id", JStr "42")])))
  = inl (mkReply 404
           (JObj [("success", JBool false);
                  ("error", JObj [("message", JStr "University not found");
                                  ("status", JInt 404)])]))
  /\ snd (run (rejects_with (Some (mkAxiosResponse 404 (JObj [("message", JStr "Unknown dataset")]))))
            (getUniversityByName (JObj [("name", JStr "Foo U")])))
     = inl (mkReply 500
              (JObj [("success", JBool false);
                     ("error", JObj [("message", JStr "Unknown dataset");
                                     ("status", JInt 404)])])).
Proof.
  split.
  - apply (proj1 (lookup_upstream_404
                    (rejects_with (Some (mkAxiosResponse 404 (JObj [("message", JStr "Unknown dataset")]))))
                    (JObj [("id", JStr "42")])
                    records_url
                    (JObj [("where", JStr "objectid = '42'"); ("limit", JInt 1)])
                    (mkAxiosResponse 404 (JObj [("message", JStr "Unknown dataset")]))
                    eq_refl eq_refl)).
    reflexivity.
  - apply (proj2 (lookup_upstream_404
                    (rejects_with (Some (mkAxiosResponse 404 (JObj [("message", JStr "Unknown dataset")]))))
                    (JObj [("name", JStr "Foo U")])
                    records_url
                    (JObj [("where", JStr "name = 'Foo U'"); ("limit", JInt 1)])
                    (mkAxiosResponse 404 (JObj [("message", JStr "Unknown dataset")]))
                    eq_refl eq_refl)).
    reflexivity.
Defined.

(** ** [POST /statistics] *)

Lemma Array_includes_strings (names : list string) (v : JValue) :
  Array_includes (map JStr names) v = true <-> exists s, v = JStr s /\ In s names.
Proof.
  induction names as [| a names IH]; cbn.
  - split; [discriminate | intros [s [_ []]]].
  - rewrite orb_true_iff, IH. split.
    + intros [H | [s [-> H]]].
      * destruct v; try discriminate. apply String.eqb_eq in H. subst.
        eexists; split; [reflexivity | now left].
      * eexists; split; [reflexivity | now right].
    + intros [s [-> [-> | H]]].
      * left. apply String.eqb_refl.
      * right. eexists; split; [reflexivity | exact H].
Qed.

Lemma selectClause_valid (aggregation text : string) (field : JValue) :
  In aggregation validAggregations ->
  aggregation = "count" \/ ToString field = Normal text ->
  selectClause (JStr aggregation) field = Normal (select_of aggregation text).
Proof.
  intros Hin Hfield. unfold selectClause, select_of. cbn [strict_equals].
  destruct (String.eqb_spec aggregation "count") as [-> | Hcount]; [reflexivity |].
  destruct Hfield as [-> | Hfield]; [congruence |].
  cbn. rewrite Hfield. cbn.
  destruct (String.eqb aggregation "avg") eqn:Havg; [| reflexivity].
  apply String.eqb_eq in Havg. subst. reflexivity.
Qed.

(** C3. For a valid aggregation the select expression is the count-all
    expression ["count(*) as count"] when the aggregation is [count], whatever the field,
    and otherwise [<agg>(int(<field>)) as <alias>], the alias being
    [average] for [avg] and the aggregation itself for [sum], [min] and
    [max]; every call the statistics handler issues for such a request
    carries it as [select], and with no filter the call is issued. *)
Theorem statistics_select_expression :
  forall (aggregation text : string) (field : JValue),
    In aggregation validAggregations ->
    aggregation = "count" \/ ToString field = Normal text ->
    selectClause (JStr aggregation) field = Normal (select_of aggregation text)
    /\ (forall (upstream : Upstream) (req_body : JValue),
          opt req_body "aggregation" = JStr aggregation ->
          opt req_body "field" = field ->
          (forall call, In call (fst (run upstream (statistics req_body))) ->
                        opt (snd call) "select" = JStr (select_of aggregation text))
          /\ (truthy field = true ->
              truthy (opt req_body "filter") = false ->
              exists params,
                fst (run upstream (statistics req_body)) = [(records_url, JObj params)])).
Proof.
  intros aggregation text field Hin Hfield.
  pose proof (selectClause_valid aggregation text field Hin Hfield) as Hselect.
  split; [exact Hselect |].
  intros upstream req_body Hagg Hf.
  assert (Hr : readable req_body).
  { apply (opt_defined_readable _ "aggregation"). congruence. }
  assert (Hvalid : Array_includes (map JStr validAggregations) (JStr aggregation) = true).
  { apply Array_includes_strings. eauto. }
  assert (Htruthy : truthy (JStr aggregation) = true).
  { cbn in Hin. decompose [or] Hin; subst; try reflexivity; contradiction. }
  unfold statistics.
  repeat (rewrite (get_readable _ _ Hr); exec).
  rewrite Hagg, Hf, Htruthy, Hvalid, Hselect.
  cbn [negb orb]. rewrite orb_false_r.
  destruct (truthy field) eqn:Hfield_truthy; cbn [negb]; exec.
  - split.
    + explore; intros call Hcall; cbn in Hcall; try contradiction;
        destruct Hcall as [<- | []];
        repeat match goal with
               | |- context [if ?b then _ else _] => destruct b
               end; reflexivity.
    + intros _ Hfilter. rewrite Hfilter. explore; eexists; reflexivity.
  - split; [intros call [] | discriminate].
Qed.

Lemma statistics_select_expression_witness :
  selectClause (JStr "avg") (JStr "population") = Normal "avg(int(population)) as average"
  /\ fst (run (resolves_with sample_payload)
            (statistics (JObj [("field", JStr "population"); ("aggregation", JStr "avg")])))
     = [(records_url, JObj [("select", JStr "avg(int(population)) as average")])].
Proof.
  destruct (statistics_select_expression "avg" "population" (JStr "population"))
    as [Hselect Hcalls].
  - right; right; left; reflexivity.
  - right; reflexivity.
  - split; [exact Hselect | reflexivity].
Defined.

Example select_of_count : select_of "count" "objectid" = "count(*) as count".
Proof. reflexivity. Qed.

Example select_of_max : select_of "max" "population" = "max(int(population)) as max".
Proof. reflexivity. Qed.

(** C5, as the code has it. A statistics request without a field or
    without an aggregation (absent, or empty) is answered 400 "Field and
    aggregation are required" before any call; with both, an aggregation
    outside the five kinds is answered 400 before any call with a message
    that lists the five kinds. *)
Theorem statistics_validation :
  forall (upstream : Upstream) (req_body : JValue),
    readable req_body ->
    let field := opt req_body "field" in
    let aggregation := opt req_body "aggregation" in
    let rejected message :=
      ([], inl (mkReply 400
                  (JObj [("success", JBool false);
                         ("error", JObj [("message", JStr message);
                                         ("status", JInt 400)])]))) in
    (truthy field = false \/ truthy aggregation = false ->
     run upstream (statistics req_body) = rejected "Field and aggregation are required")
    /\ (truthy field = true -> truthy aggregation = true ->
        ~ In aggregation (map JStr validAggregations) ->
        run upstream (statistics req_body)
        = rejected "Invalid aggregation. Must be one of: count, sum, avg, min, max"
        /\ lists_valid_aggregations
             (JStr "Invalid aggregation. Must be one of: count, sum, avg, min, max")).
Proof.
  intros upstream req_body Hr field aggregation rejected.
  split.
  - intros H. unfold statistics.
    repeat (rewrite (get_readable _ _ Hr); exec).
    fold field aggregation.
    replace (negb (truthy field) || negb (truthy aggregation)) with true.
    + reflexivity.
    + destruct H as [-> | ->]; cbn; [reflexivity | now rewrite orb_true_r].
  - intros Hf Ha Hout. split.
    + unfold statistics.
      repeat (rewrite (get_readable _ _ Hr); exec).
      fold field aggregation. rewrite Hf, Ha. cbn [negb orb].
      destruct (Array_includes (map JStr validAggregations) aggregation) eqn:Hin.
      * exfalso. apply Hout. apply Array_includes_strings in Hin.
        destruct Hin as [s [-> Hin]]. apply in_map. exact Hin.
      * reflexivity.
    + eexists. split; [reflexivity |].
      repeat constructor.
Qed.

Lemma statistics_validation_witness :
  run (resolves_with sample_payload) (statistics (JObj [("aggregation", JStr "sum")]))
  = ([], inl (mkReply 400
                (JObj [("success", JBool false);
                       ("error", JObj [("message", JStr "Field and aggregation are required");
                                       ("status", JInt 400)])])))
  /\ run (resolves_with sample_payload)
       (statistics (JObj [("field", JStr "population"); ("aggregation", JStr "median")]))
     = ([], inl (mkReply 400
                   (JObj [("success", JBool false);
                          ("error",
                           JObj [("message",
                                  JStr "Invalid aggregation. Must be one of: count, sum, avg, min, max");
                                 ("status", JInt 400)])]))).
Proof.
  split.
  - apply (proj1 (statistics_validation (resolves_with sample_payload)
                    (JObj [("aggregation", JStr "sum")])
                    (readable_object _))).
    left; reflexivity.
  - apply (proj2 (statistics_validation (resolves_with sample_payload)
                    (JObj [("field", JStr "population"); ("aggregation", JStr "median")])
                    (readable_object _))).
    + reflexivity.
    + reflexivity.
    + cbn. intros H. decompose [or] H; discriminate || contradiction.
Defined.

(** C5, as the specification words it: any unrecognized aggregation would
    get the message that lists the valid kinds. A request that names an
    unrecognized aggregation and no field is told that field and
    aggregation are required. *)
Lemma statistics_unrecognized_without_field :
  ~ In (opt (JObj [("aggregation", JStr "median")]) "aggregation")
       (map JStr validAggregations)
  /\ exists reply,
       run (resolves_with sample_payload)
         (statistics (JObj [("aggregation", JStr "median")]))
       = ([], inl reply)
       /\ code reply = 400%Z
       /\ error_message reply = JStr "Field and aggregation are required"
       /\ ~ lists_valid_aggregations (error_message reply).
Proof.
  split.
  - cbn. intros H. decompose [or] H; discriminate || contradiction.
  - eexists. split; [reflexivity |]. split; [reflexivity |]. split; [reflexivity |].
    intros [s [Hs Hall]]. injection Hs as <-.
    inversion Hall as [| a names Hcount _]. discriminate Hcount.
Qed.

(** ** [GET /getFields] *)

Lemma prefix_spec (p s : string) :
  String.prefix p s = true <-> exists b, s = p ++ b.
Proof.
  revert s. induction p as [| x p IH]; intros s.
  - destruct s; cbn; split; eauto.
  - destruct s as [| y s]; cbn.
    + split; [discriminate | intros [b H]; discriminate H].
    + destruct (ascii_dec x y) as [-> | Hxy].
      * rewrite IH. split; intros [b H]; exists b; congruence.
      * split; [discriminate | intros [b H]; congruence].
Qed.

Lemma includes_contains (s p : string) :
  Str.includes s p = true <-> contains s p.
Proof.
  unfold contains. split.
  - induction s as [| c s IH]; cbn [Str.includes]; rewrite orb_true_iff.
    + intros [H | H]; [| discriminate].
      apply prefix_spec in H. destruct H as [b H]. exists "", b. exact H.
    + intros [H | H].
      * apply prefix_spec in H. destruct H as [b H]. exists "", b. exact H.
      * destruct (IH H) as [a [b E]]. exists (String c a), b. cbn. now rewrite E.
  - intros [a [b E]]. revert s E.
    induction a as [| c a IH]; intros s E.
    + assert (H : String.prefix p s = true) by (apply prefix_spec; exists b; exact E).
      destruct s; cbn [Str.includes]; rewrite H; reflexivity.
    + subst s. cbn [Str.includes append]. rewrite (IH _ eq_refl). apply orb_true_r.
Qed.

Lemma includes_not_contains (s p : string) :
  Str.includes s p = false <-> ~ contains s p.
Proof.
  rewrite <- includes_contains. destruct (Str.includes s p); split; congruence.
Qed.

Lemma replace_all_underscores (key : string) :
  underscores_to_spaces key (Str.replace_all "_" " " key).
Proof.
  split.
  - induction key as [| c key IH]; cbn; congruence.
  - induction key as [| c key IH]; intros i; [reflexivity |].
    destruct i as [| i]; cbn; [reflexivity | apply IH].
Qed.

(** The test of the callback, in the vocabulary above: the conversion
    gives a number exactly on the values that parse as one and on the
    converted ones. *)
Lemma isNaN_ToNumber (v : JValue) (n : JNumber) :
  ToNumber v = Normal n ->
  isNaN n = false <-> parses_as_number v \/ converted_to_number v.
Proof.
  assert (Hnan : forall m, isNaN m = false <-> m <> NaN).
  { intros m. destruct m; cbn; split; congruence. }
  destruct v as [| | b | m | s | items | props]; cbn [ToNumber]; intros Hn.
  - injection Hn as <-. cbn. split; [discriminate | intros [[] | []]].
  - injection Hn as <-. cbn. split; [right; exact I | reflexivity].
  - injection Hn as <-. cbn. split; [right; exact I | now destruct b].
  - injection Hn as <-. rewrite Hnan. cbn. tauto.
  - injection Hn as <-. rewrite Hnan. cbn [parses_as_number converted_to_number].
    destruct (string_dec (Str.trim s) EmptyString) as [Hblank | Hblank].
    + split; [now right |]. intros _. unfold StringToNumber. rewrite Hblank. discriminate.
    + tauto.
  - destruct (ToString (JArr items)) as [text |] eqn:Htext; [| discriminate Hn].
    injection Hn as <-. rewrite Hnan. cbn [parses_as_number converted_to_number].
    split.
    + intros H. right. exists text. split; [exact Htext | exact H].
    + intros [[] | [text' [Heq H]]]. rewrite Htext in Heq. now injection Heq as <-.
  - cbn [ToString] in Hn. destruct (has_own "toString" props); [discriminate Hn |].
    injection Hn as <-. cbn [parses_as_number converted_to_number].
    split; [intros H; vm_compute in H; discriminate H | intros [[] | []]].
Qed.

(** The callback on one key of the sample record. *)
Lemma field_of_describes (sampleRecord value : JValue) (key : string) (n : JNumber) :
  get sampleRecord key = Normal value ->
  ToNumber value = Normal n ->
  exists descriptor,
    field_of sampleRecord key = Normal descriptor
    /\ describes_with discovered_type (key, value) descriptor.
Proof.
  intros Hget Hnum. unfold field_of. rewrite Hget. cbn [bind Monad_Completion Completion_bind].
  destruct (Str.includes key "date" || Str.includes key "time") eqn:Hname.
  - eexists. split; [reflexivity |].
    exists "date", (Str.replace_all "_" " " key).
    split; [reflexivity |]. split; [| apply replace_all_underscores].
    left. split; [| reflexivity].
    apply orb_true_iff in Hname. now rewrite <- !includes_contains.
  - assert (Hno : ~ (contains key "date" \/ contains key "time")).
    { apply orb_false_iff in Hname. rewrite <- !includes_contains.
      destruct Hname as [-> ->]. intros [H | H]; discriminate H. }
    rewrite Hnum. cbn [bind ret Monad_Completion Completion_bind].
    pose proof (isNaN_ToNumber value n Hnum) as Htest.
    destruct (isNaN n) eqn:Hnan; cbn [negb]; eexists; (split; [reflexivity |]).
    + exists (typeof value), (Str.replace_all "_" " " key).
      split; [reflexivity |]. split; [| apply replace_all_underscores].
      right; right. split; [exact Hno |]. split; [| reflexivity].
      cbn [snd]. intros H. apply Htest in H. discriminate H.
    + exists "number", (Str.replace_all "_" " " key).
      split; [reflexivity |]. split; [| apply replace_all_underscores].
      right; left. split; [exact Hno |]. split; [| reflexivity].
      cbn [snd]. now apply Htest.
Qed.

(** Off the converted values the two inferences of the type agree. *)
Lemma discovered_describes (entries : list (string * JValue)) (fields : list JValue) :
  Forall2 (describes_with discovered_type) entries fields ->
  Forall (fun entry => ~ converted_to_number (snd entry)) entries ->
  Forall2 describes entries fields.
Proof.
  induction 1 as [| entry field entries fields Hfield _ IH]; intros Hplain;
    [constructor |].
  inversion Hplain as [| ? ? Hentry Hrest]; subst.
  constructor; [| exact (IH Hrest)].
  destruct Hfield as [type [description [Hd [Htype Hdescription]]]].
  exists type, description. split; [exact Hd |]. split; [| exact Hdescription].
  destruct Htype as [H | [[Hno [Hnum Ht]] | [Hno [Hnum Ht]]]].
  - left. exact H.
  - right; left. split; [exact Hno |]. split; [tauto | exact Ht].
  - right; right. split; [exact Hno |]. split; [tauto | exact Ht].
Qed.

Lemma lookup_in_nodup (props : list (string * JValue)) (key : string) (value : JValue) :
  NoDup (map fst props) -> In (key, value) props -> lookup key props = Some value.
Proof.
  induction props as [| [k v] props IH]; cbn; intros Hnd Hin; [contradiction |].
  inversion Hnd as [| ? ? Hnotin Hnd']; subst.
  destruct Hin as [E | Hin].
  - injection E as -> ->. now rewrite String.eqb_refl.
  - destruct (String.eqb_spec k key) as [-> | _].
    + elim Hnotin. apply (in_map fst) in Hin. exact Hin.
    + auto.
Qed.

Lemma Array_map_fields (sampleRecord : JValue) (entries : list (string * JValue)) :
  (forall key value, In (key, value) entries ->
                     get sampleRecord key = Normal value
                     /\ exists n, ToNumber value = Normal n) ->
  exists fields,
    Array_map (field_of sampleRecord) (map fst entries) = Normal fields
    /\ Forall2 (describes_with discovered_type) entries fields.
Proof.
  induction entries as [| [key value] entries IH]; intros H.
  - exists []. split; [reflexivity | constructor].
  - destruct (H key value (or_introl eq_refl)) as [Hget [n Hnum]].
    destruct (field_of_describes _ _ _ _ Hget Hnum) as [d [Hd Hdesc]].
    destruct IH as [fields [Hfields Hall]].
    { intros k v Hin. apply H. now right. }
    exists (d :: fields). split.
    + cbn [Array_map map fst bind ret Monad_Completion Completion_bind].
      rewrite Hd, Hfields. reflexivity.
    + constructor; assumption.
Qed.

Lemma gt_length_positive (n : nat) :
  gt (JInt (Z.of_nat (S n))) (of_Z 0) = Normal true.
Proof.
  apply gt_number. rewrite <- Zlt_Qlt. lia.
Qed.

Lemma has_results_nonempty (response : AxiosResponse) (first : JValue) (more : list JValue) :
  opt (data response) "results" = JArr (first :: more) ->
  has_results response = Normal true.
Proof.
  intros H. unfold has_results.
  rewrite (get_readable (data response) "results").
  - rewrite H. cbn [bind Monad_Completion Completion_bind truthy get String.eqb Ascii.eqb Bool.eqb].
    apply gt_length_positive.
  - apply (opt_defined_readable _ "results"). congruence.
Qed.

Lemma get_first (first : JValue) (more : list JValue) :
  get (JArr (first :: more)) "0" = Normal first.
Proof. reflexivity. Qed.

(** Every scalar converts to a number, so the theorem below covers the
    records of the data model. *)
Lemma scalar_ToNumber (v : JValue) :
  match v with JArr _ | JObj _ => False | _ => True end ->
  exists n, ToNumber v = Normal n.
Proof. destruct v; cbn; intros H; try contradiction; eexists; reflexivity. Qed.

(** C6. Field discovery answers with one descriptor per key of the sample
    record, in order: the name is the key; the type is [date] when the key
    contains [date] or [time], else [number] when the value parses as a
    number or is one of the converted values ([null], a boolean, a blank
    text, an array whose text is blank or numeric), else the runtime type of
    the value; the description is the key with underscores turned into
    spaces. On a record without converted values this is the inference of
    the specification. On the sample record of the specification,
    [enrollment_date] is a [date] and [objectid] a [number]. *)
Theorem getFields_descriptors :
  (forall (upstream : Upstream) (response : AxiosResponse)
          (props : list (string * JValue)) (more : list JValue),
      upstream records_url (JObj [("limit", JInt 1)]) = Resolved response ->
      opt (data response) "results" = JArr (JObj props :: more) ->
      NoDup (map fst props) ->
      Forall (fun entry => exists n, ToNumber (snd entry) = Normal n) props ->
      exists fields,
        run upstream getFields
        = ([(records_url, JObj [("limit", JInt 1)])],
           inl (mkReply 200 (JObj [("success", JBool true); ("data", JArr fields)])))
        /\ Forall2 (describes_with discovered_type) props fields
        /\ (Forall (fun entry => ~ converted_to_number (snd entry)) props ->
            Forall2 describes props fields))
  /\ run (resolves_with (JObj [("total_count", JInt 1); ("results", JArr [sample_record])]))
       getFields
     = ([(records_url, JObj [("limit", JInt 1)])],
        inl (mkReply 200
               (JObj [("success", JBool true);
                      ("data",
                       JArr [JObj [("name", JStr "name");
                                   ("type", JStr "string");
                                   ("description", JStr "name")];
                             JObj [("name", JStr "enrollment_date");
                                   ("type", JStr "date");
                                   ("description", JStr "enrollment date")];
                             JObj [("name", JStr "objectid");
                                   ("type", JStr "number");
                                   ("description", JStr "objectid")]])]))).
Proof.
  split; [| reflexivity].
  intros upstream response props more Hup Hresults Hnodup Hnumbers.
  destruct (Array_map_fields (JObj props) props) as [fields [Hfields Hall]].
  { intros key value Hin. split.
    - cbn. now rewrite (lookup_in_nodup _ _ _ Hnodup Hin).
    - rewrite Forall_forall in Hnumbers. apply (Hnumbers (key, value) Hin). }
  exists fields. split; [| split; [exact Hall | apply discovered_describes; exact Hall]].
  unfold getFields. exec. rewrite Hup. exec.
  rewrite (has_results_nonempty _ _ _ Hresults). exec.
  rewrite (get_readable (data response) "results"), Hresults.
  2: { apply (opt_defined_readable _ "results"). congruence. }
  exec. rewrite get_first. exec.
  cbn [Object_keys Object_entries bind ret Monad_Completion Completion_bind].
  exec. rewrite Hfields. exec. reflexivity.
Qed.

Lemma getFields_descriptors_witness :
  exists fields,
    run (resolves_with (JObj [("results", JArr [JObj [("founded_time", JStr "1868");
                                                      ("zip", JStr "94720");
                                                      ("is_public", JBool true);
                                                      ("campus_setting", JStr "City")]])]))
      getFields
    = ([(records_url, JObj [("limit", JInt 1)])],
       inl (mkReply 200 (JObj [("success", JBool true); ("data", JArr fields)])))
    /\ Forall2 (describes_with discovered_type)
         [("founded_time", JStr "1868"); ("zip", JStr "94720");
          ("is_public", JBool true); ("campus_setting", JStr "City")]
         fields
    /\ (Forall (fun entry => ~ converted_to_number (snd entry))
          [("founded_time", JStr "1868"); ("zip", JStr "94720");
           ("is_public", JBool true); ("campus_setting", JStr "City")] ->
        Forall2 describes
          [("founded_time", JStr "1868"); ("zip", JStr "94720");
           ("is_public", JBool true); ("campus_setting", JStr "City")]
          fields).
Proof.
  apply (proj1 getFields_descriptors
           (resolves_with (JObj [("results", JArr [JObj [("founded_time", JStr "1868");
                                                         ("zip", JStr "94720");
                                                         ("is_public", JBool true);
                                                         ("campus_setting", JStr "City")]])]))
           (mkAxiosResponse 200
              (JObj [("results", JArr [JObj [("founded_time", JStr "1868");
                                             ("zip", JStr "94720");
                                             ("is_public", JBool true);
                                             ("campus_setting", JStr "City")]])]))
           _ []).
  - reflexivity.
  - reflexivity.
  - repeat constructor; cbn; intuition discriminate.
  - repeat constructor; eexists; reflexivity.
Defined.

(** C6, as the specification words it: a value that does not parse as a
    number would be given its own runtime type. A boolean does not parse as
    a number and its runtime type is [boolean]; field discovery gives the
    field the type [number]. *)
Lemma getFields_boolean_typed_number :
  ~ parses_as_number (JBool true)
  /\ typeof (JBool true) = "boolean"
  /\ exists fields,
       run (resolves_with (JObj [("results", JArr [JObj [("is_public", JBool true)]])]))
         getFields
       = ([(records_url, JObj [("limit", JInt 1)])],
          inl (mkReply 200 (JObj [("success", JBool true); ("data", JArr fields)])))
       /\ fields = [JObj [("name", JStr "is_public");
                          ("type", JStr "number");
                          ("description", JStr "is public")]]
       /\ ~ Forall2 describes [("is_public", JBool true)] fields.
Proof.
  split; [intros [] |]. split; [reflexivity |].
  eexists. split; [reflexivity |]. split; [reflexivity |].
  intros H. inversion H as [| ? ? ? ? Hfield _]; subst.
  destruct Hfield as [type [description [Hd [Htype _]]]].
  injection Hd as <- _.
  destruct Htype as [[_ Ht] | [[_ [[] _]] | [_ [_ Ht]]]]; discriminate Ht.
Qed.

(** ** The envelope *)

Lemma truthy_JInt (z : Z) : truthy (JInt z) = negb (z =? 0)%Z.
Proof.
  cbn. unfold Qeq_bool. cbn. rewrite Z.mul_1_r. reflexivity.
Qed.

(** What every [catch] block sends. *)
Lemma upstream_failure_reply (fallback : string) (error : Thrown) :
  let reply := upstream_failure fallback error in
  is_failure reply
  /\ code reply = 500%Z
  /\ error_message reply
     = or_else (error_response_data_message error) (JStr fallback)
  /\ error_status reply
     = match error_response error with
       | Some response =>
           if (status response =? 0)%Z then JInt 500 else JInt (status response)
       | None => JInt 500
       end.
Proof.
  cbv zeta. split; [reflexivity |]. split; [reflexivity |]. split; [reflexivity |].
  unfold upstream_failure, error_status, error_response_status.
  destruct (error_response error) as [[s d] |]; [| reflexivity].
  unfold or_else. rewrite truthy_JInt. cbn [status].
  destruct (s =? 0)%Z; reflexivity.
Qed.

(** Every request is answered, after at most one call to the upstream. *)
Lemma server_replies (upstream : Upstream) (request : Request) :
  exists calls reply,
    run upstream (server request) = (calls, inl reply) /\ (List.length calls <= 1)%nat.
Proof.
  destruct request; cbn [server];
    [unfold search | unfold getUniversity | unfold getUniversityByName
     | unfold getFields | unfold statistics];
    explore; do 2 eexists; (split; [reflexivity | cbn; lia]).
Qed.

Lemma strict_equals_JInt (a b : Z) : strict_equals (JInt a) (JInt b) = (a =? b)%Z.
Proof.
  cbn. unfold Qeq_bool. cbn. rewrite !Z.mul_1_r. reflexivity.
Qed.

Lemma status_is_404 (response : option AxiosResponse) :
  strict_equals (error_response_status (AxiosError response)) (JInt 404)
  = match response with
    | Some r => (status r =? 404)%Z
    | None => false
    end.
Proof.
  destruct response as [r |]; [| reflexivity].
  unfold error_response_status. cbn [error_response]. apply strict_equals_JInt.
Qed.

Lemma server_run_settled (upstream : Upstream) (request : Request) :
  match run upstream (server request) with
  | (calls, inl reply) => settled upstream request calls reply
  | (_, inr _) => False
  end.
Proof.
  destruct request; cbn [server];
    [unfold search | unfold getUniversity | unfold getUniversityByName
     | unfold getFields | unfold statistics];
    explore; settle status_is_404.
Qed.

Lemma server_settled (upstream : Upstream) (request : Request)
    (calls : list (string * JValue)) (reply : Reply) :
  run upstream (server request) = (calls, inl reply) ->
  settled upstream request calls reply.
Proof.
  intros Hrun. pose proof (server_run_settled upstream request) as H.
  rewrite Hrun in H. exact H.
Qed.

(** C1, as the code has it. When the handling of a request ends in a
    failure envelope, the HTTP status equals [error.status] on the
    validation and not-found paths and whenever no upstream status is at
    hand; when the call to the upstream is rejected with a status,
    [error.status] is that status while the HTTP status is 500, except for
    the lookup by id, which answers an upstream 404 with 404. Without an
    upstream response both are 500 and the message is the generic one of
    the route. *)
Theorem failure_envelope_status :
  forall (upstream : Upstream) (request : Request)
         (calls : list (string * JValue)) (reply : Reply),
    run upstream (server request) = (calls, inl reply) ->
    (is_failure reply ->
     error_status reply = JInt (code reply)
     \/ exists url params response,
          calls = [(url, params)]
          /\ upstream url params = Rejected (Some response)
          /\ code reply = 500%Z
          /\ error_status reply = JInt (status response))
    /\ (forall url params,
          calls = [(url, params)] ->
          upstream url params = Rejected None ->
          is_failure reply
          /\ code reply = 500%Z
          /\ error_status reply = JInt 500
          /\ error_message reply = JStr (generic_message request))
    /\ (forall url params response,
          calls = [(url, params)] ->
          upstream url params = Rejected (Some response) ->
          status response <> 0%Z ->
          is_failure reply
          /\ error_status reply = JInt (status response)
          /\ code reply
             = if is_lookup_by_id request && (status response =? 404)%Z
               then 404%Z else 500%Z).
Proof.
  intros upstream request calls reply Hrun.
  destruct (server_settled _ _ _ _ Hrun) as [[-> Hmirror] | [url [params [-> Hcall]]]].
  - split; [auto |]. split; intros; discriminate.
  - destruct (upstream url params) as [response | response] eqn:Hup.
    + split; [auto |].
      split; intros u p; intros; assert (upstream u p = upstream url params) by congruence;
        congruence.
    + assert (Hsame : forall u p r, [(url, params)] = [(u, p)] ->
                                    upstream u p = Rejected r -> r = response).
      { intros u p r E H. injection E as <- <-. congruence. }
      destruct response as [r |].
      * destruct (upstream_failure_reply (generic_message request) (AxiosError (Some r)))
          as (Hf & Hc & Hm & Hs).
        cbn [error_response] in Hs.
        destruct (is_lookup_by_id request && (status r =? 404)%Z) eqn:Hcase.
        -- assert (H404 : status r = 404%Z).
           { apply andb_true_iff in Hcase. apply Z.eqb_eq. apply Hcase. }
           subst reply. split; [left; reflexivity |]. split.
           ++ intros u p E H. discriminate (Hsame u p None E H).
           ++ intros u p r' E H _. injection (Hsame u p (Some r') E H) as ->.
              rewrite Hcase, H404. repeat split.
        -- subst reply. split; [| split].
           ++ intros _. destruct (status r =? 0)%Z.
              ** left. rewrite Hs, Hc. reflexivity.
              ** right. exists url, params, r. repeat split; assumption.
           ++ intros u p E H. discriminate (Hsame u p None E H).
           ++ intros u p r' E H Hnz. injection (Hsame u p (Some r') E H) as ->.
              rewrite Hcase. apply Z.eqb_neq in Hnz. rewrite Hnz in Hs.
              repeat split; assumption.
      * rewrite andb_false_r in Hcall. subst reply.
        destruct (upstream_failure_reply (generic_message request) (AxiosError None))
          as (Hf & Hc & Hm & Hs).
        cbn [error_response] in Hs.
        split; [left; rewrite Hs, Hc; reflexivity |]. split.
        -- intros u p E H. repeat split; assumption.
        -- intros u p r' E H. discriminate (Hsame u p (Some r') E H).
Qed.

Lemma failure_envelope_status_witness :
  is_failure
    (mkReply 500
       (JObj [("success", JBool false);
              ("error", JObj [("message", JStr "Too many requests");
                              ("status", JInt 429)])]))
  /\ error_status
       (mkReply 500
          (JObj [("success", JBool false);
                 ("error", JObj [("message", JStr "Too many requests");
                                 ("status", JInt 429)])]))
     = JInt 429
  /\ code
       (mkReply 500
          (JObj [("success", JBool false);
                 ("error", JObj [("message", JStr "Too many requests");
                                 ("status", JInt 429)])]))
     = 500%Z.
Proof.
  apply (proj2 (proj2
           (failure_envelope_status
              (rejects_with (Some (mkAxiosResponse 429 (JObj [("message", JStr "Too many requests")]))))
              (POST_search (JObj [("state", JStr "CA")]))
              [(records_url,
                JObj [("limit", JInt 10); ("offset", JInt 0); ("where", JStr "state = 'CA'")])]
              _ eq_refl))
           records_url
           (JObj [("limit", JInt 10); ("offset", JInt 0); ("where", JStr "state = 'CA'")])
           (mkAxiosResponse 429 (JObj [("message", JStr "Too many requests")]))
           eq_refl eq_refl).
  discriminate.
Defined.

(** C1, as the specification words it: the HTTP status would equal
    [error.status] in every failure envelope. A search whose call the
    upstream rejects with status 503 is answered with HTTP status 500 and
    an envelope whose [error.status] is 503. *)
Lemma upstream_status_not_mirrored :
  exists calls reply,
    run (rejects_with
           (Some (mkAxiosResponse 503 (JObj [("message", JStr "Service Unavailable")]))))
      (server (POST_search (JObj [("state", JStr "CA")])))
    = (calls, inl reply)
    /\ is_failure reply
    /\ code reply = 500%Z
    /\ error_status reply = JInt 503
    /\ error_status reply <> JInt (code reply).
Proof.
  do 2 eexists. split; [reflexivity |].
  split; [reflexivity |]. split; [reflexivity |]. split; [reflexivity |].
  cbv. discriminate.
Qed.

(* ===================================================================== *)
(** * Further properties of the handlers *)
(* ===================================================================== *)

(** ** The lookups *)

(** X1. A lookup whose [id] (by id) or [name] (by name) is missing or empty
    is answered 400 with the message naming the parameter, and no call to
    the upstream is issued. *)
Theorem lookup_requires_parameter :
  forall (upstream : Upstream) (req_query : JValue),
    readable req_query ->
    (truthy (opt req_query "id") = false ->
     run upstream (getUniversity req_query)
     = ([], inl (failure 400 "University ID is required" 400)))
    /\ (truthy (opt req_query "name") = false ->
        run upstream (getUniversityByName req_query)
        = ([], inl (failure 400 "University name is required" 400))).
Proof.
  intros upstream req_query Hr.
  split; intros H; [unfold getUniversity | unfold getUniversityByName];
    rewrite (get_readable _ _ Hr); exec; rewrite H; reflexivity.
Qed.

Lemma lookup_requires_parameter_witness :
  run (resolves_with sample_payload) (getUniversity (JObj [("id", JStr "")]))
  = ([], inl (failure 400 "University ID is required" 400))
  /\ run (resolves_with sample_payload) (getUniversityByName (JObj [("id", JStr "7")]))
     = ([], inl (failure 400 "University name is required" 400)).
Proof.
  split.
  - apply (proj1 (lookup_requires_parameter (resolves_with sample_payload)
                    (JObj [("id", JStr "")]) (readable_object _))).
    reflexivity.
  - apply (proj2 (lookup_requires_parameter (resolves_with sample_payload)
                    (JObj [("id", JStr "7")]) (readable_object _))).
    reflexivity.
Defined.

(** X2. A lookup with a non-empty text parameter issues exactly one call,
    to the records of the dataset, with [limit] 1 and a [where] that holds
    the text as it came, between quotes, whatever characters it has. *)
Theorem lookup_call :
  forall (upstream : Upstream) (req_query : JValue) (text : string),
    text <> EmptyString ->
    (opt req_query "id" = JStr text ->
     fst (run upstream (getUniversity req_query))
     = [(records_url,
         JObj [("where", JStr ("objectid = '" ++ text ++ "'")); ("limit", JInt 1)])])
    /\ (opt req_query "name" = JStr text ->
        fst (run upstream (getUniversityByName req_query))
        = [(records_url,
            JObj [("where", JStr ("name = '" ++ text ++ "'")); ("limit", JInt 1)])]).
Proof.
  intros upstream req_query text Htext.
  assert (Htruthy : truthy (JStr text) = true) by (destruct text; [congruence | reflexivity]).
  split; intros H;
    (assert (Hr : readable req_query)
       by (eapply opt_defined_readable; rewrite H; discriminate));
    [unfold getUniversity | unfold getUniversityByName];
    rewrite (get_readable _ _ Hr), H; exec; rewrite Htruthy;
    cbn [negb ToString]; explore; reflexivity.
Qed.

Lemma lookup_call_witness :
  fst (run (resolves_with empty_payload) (getUniversity (JObj [("id", JStr "1' OR '1'='1")])))
  = [(records_url,
      JObj [("where", JStr "objectid = '1' OR '1'='1'"); ("limit", JInt 1)])]
  /\ fst (run (resolves_with empty_payload) (getUniversityByName (JObj [("name", JStr "Foo U")])))
     = [(records_url, JObj [("where", JStr "name = 'Foo U'"); ("limit", JInt 1)])].
Proof.
  split.
  - apply (proj1 (lookup_call (resolves_with empty_payload)
                    (JObj [("id", JStr "1' OR '1'='1")]) "1' OR '1'='1"
                    ltac:(discriminate))).
    reflexivity.
  - apply (proj2 (lookup_call (resolves_with empty_payload)
                    (JObj [("name", JStr "Foo U")]) "Foo U" ltac:(discriminate))).
    reflexivity.
Defined.

(** X3. A lookup whose call the upstream answers with a non-empty array of
    records is answered 200 with the success envelope around the first
    record; the others are not looked at. *)
Theorem lookup_first_record :
  forall (upstream : Upstream) (req_query : JValue)
         (url : string) (params : JValue) (response : AxiosResponse)
         (first : JValue) (more : list JValue),
    upstream url params = Resolved response ->
    opt (data response) "results" = JArr (first :: more) ->
    (fst (run upstream (getUniversity req_query)) = [(url, params)] ->
     snd (run upstream (getUniversity req_query))
     = inl (mkReply 200 (JObj [("success", JBool true); ("data", first)])))
    /\ (fst (run upstream (getUniversityByName req_query)) = [(url, params)] ->
        snd (run upstream (getUniversityByName req_query))
        = inl (mkReply 200 (JObj [("success", JBool true); ("data", first)]))).
Proof.
  intros upstream req_query url params response first more Hup Hresults.
  pose proof (has_results_nonempty response first more Hresults) as Hsome.
  assert (Hget : get (data response) "results" = Normal (JArr (first :: more))).
  { rewrite <- Hresults. apply get_readable.
    apply (opt_defined_readable _ "results"). congruence. }
  pose proof (get_first first more) as Hfirst.
  split; [unfold getUniversity | unfold getUniversityByName];
    explore; intros Hcalls; try discriminate Hcalls;
    inversion Hcalls; subst; cbn [append] in *; try congruence;
    match goal with
    | H : has_results ?r = _ |- _ => assert (r = response) as -> by congruence
    end; try congruence;
    match goal with
    | H1 : get (data response) "results" = Normal ?x, H2 : get ?x "0" = Normal ?y |- _ =>
        assert (x = JArr (first :: more)) as -> by congruence;
        assert (y = first) as -> by congruence
    end; reflexivity.
Qed.

Lemma lookup_first_record_witness :
  snd (run (resolves_with sample_payload) (getUniversity (JObj [("id", JStr "5")])))
  = inl (mkReply 200 (JObj [("success", JBool true); ("data", sample_record)]))
  /\ snd (run (resolves_with sample_payload) (getUniversityByName (JObj [("name", JStr "Foo U")])))
     = inl (mkReply 200 (JObj [("success", JBool true); ("data", sample_record)])).
Proof.
  split.
  - apply (proj1 (lookup_first_record
                    (resolves_with sample_payload) (JObj [("id", JStr "5")])
                    records_url
                    (JObj [("where", JStr "objectid = '5'"); ("limit", JInt 1)])
                    (mkAxiosResponse 200 sample_payload) sample_record []
                    eq_refl eq_refl)).
    reflexivity.
  - apply (proj2 (lookup_first_record
                    (resolves_with sample_payload) (JObj [("name", JStr "Foo U")])
                    records_url
                    (JObj [("where", JStr "name = 'Foo U'"); ("limit", JInt 1)])
                    (mkAxiosResponse 200 sample_payload) sample_record []
                    eq_refl eq_refl)).
    reflexivity.
Defined.

(** ** [GET /getFields] without a sample *)

Lemma has_results_falsy (response : AxiosResponse) :
  readable (data response) ->
  truthy (opt (data response) "results") = false ->
  has_results response = Normal false.
Proof.
  intros Hr H. unfold has_results. rewrite (get_readable _ _ Hr).
  cbn [bind Monad_Completion Completion_bind]. rewrite H. reflexivity.
Qed.

(** X4. When the upstream answers the sampling call with no record (an
    empty [results], or none), field discovery is answered with HTTP 500
    and the generic failure envelope: the message of the error the handler
    throws for this case is not the one sent. *)
Theorem getFields_without_sample :
  forall (upstream : Upstream) (response : AxiosResponse),
    upstream records_url (JObj [("limit", JInt 1)]) = Resolved response ->
    readable (data response) ->
    opt (data response) "results" = JArr []
    \/ truthy (opt (data response) "results") = false ->
    run upstream getFields
    = ([(records_url, JObj [("limit", JInt 1)])],
       inl (failure 500 "Failed to fetch dataset fields" 500)).
Proof.
  intros upstream response Hup Hr Hnone.
  assert (H : has_results response = Normal false).
  { destruct Hnone as [H | H];
      [apply has_results_empty | apply has_results_falsy]; assumption. }
  unfold getFields. exec. rewrite Hup. exec. rewrite H. exec. reflexivity.
Qed.

Lemma getFields_without_sample_witness :
  run (resolves_with empty_payload) getFields
  = ([(records_url, JObj [("limit", JInt 1)])],
     inl (failure 500 "Failed to fetch dataset fields" 500)).
Proof.
  apply (getFields_without_sample (resolves_with empty_payload)
           (mkAxiosResponse 200 empty_payload) eq_refl (readable_object _)).
  left; reflexivity.
Defined.

(** ** [POST /statistics]: the call and the reply *)

Lemma filter_clause_literal (entry : string * JValue) :
  literal (snd entry) -> filter_clause entry = Normal (clause_of entry).
Proof.
  destruct entry as [key [| | | n | s | |]]; cbn; intros H; try contradiction; reflexivity.
Qed.

Lemma Array_map_filter_clause (entries : list (string * JValue)) :
  Forall (fun entry => literal (snd entry)) entries ->
  Array_map filter_clause entries = Normal (map clause_of entries).
Proof.
  induction 1 as [| entry entries Hentry _ IH].
  - reflexivity.
  - cbn [Array_map map bind ret Monad_Completion Completion_bind].
    rewrite (filter_clause_literal _ Hentry), IH. reflexivity.
Qed.

Lemma clause_of_not_empty (entry : string * JValue) :
  literal (snd entry) -> Str.is_empty (clause_of entry) = false.
Proof.
  destruct entry as [key [| | | n | s | |]]; cbn; intros H; try contradiction;
    destruct key; reflexivity.
Qed.

Lemma join_not_empty (sep first : string) (rest : list string) :
  Str.is_empty first = false -> Str.is_empty (Str.join sep (first :: rest)) = false.
Proof.
  destruct first as [| c first]; [discriminate |].
  intros _. destruct rest; reflexivity.
Qed.

(** X5. A statistics request that passes validation issues exactly one
    call, whose parameters are, in order: [select]; [group_by], when
    [groupBy] is given; [where], when the filter has at least one entry,
    made of the clauses of its entries joined by AND, a text value between
    quotes and a number bare. Without entries there is no [where]. *)
Theorem statistics_call :
  forall (upstream : Upstream) (req_body : JValue)
         (aggregation text : string) (entries : list (string * JValue)),
    opt req_body "aggregation" = JStr aggregation ->
    In aggregation validAggregations ->
    truthy (opt req_body "field") = true ->
    aggregation = "count" \/ ToString (opt req_body "field") = Normal text ->
    (opt req_body "filter" = JObj entries
     \/ truthy (opt req_body "filter") = false /\ entries = []) ->
    Forall (fun entry => literal (snd entry)) entries ->
    fst (run upstream (statistics req_body))
    = [(records_url,
        JObj ([("select", JStr (select_of aggregation text))]
              ++ (if truthy (opt req_body "groupBy")
                  then [("group_by", opt req_body "groupBy")] else [])
              ++ match entries with
                 | [] => []
                 | _ => [("where", JStr (Str.join " AND " (map clause_of entries)))]
                 end)%list)].
Proof.
  intros upstream req_body aggregation text entries Hagg Hin Hfield Hselect Hfilter Hlit.
  assert (Hr : readable req_body).
  { apply (opt_defined_readable _ "aggregation"). congruence. }
  assert (Hvalid : Array_includes (map JStr validAggregations) (JStr aggregation) = true).
  { apply Array_includes_strings. eauto. }
  assert (Htruthy : truthy (JStr aggregation) = true).
  { cbn in Hin. decompose [Logic.or] Hin; subst; try reflexivity; contradiction. }
  pose proof (selectClause_valid aggregation text _ Hin Hselect) as Hsel.
  unfold statistics.
  repeat (rewrite (get_readable _ _ Hr); exec).
  rewrite Hagg, Hfield, Htruthy, Hvalid, Hsel. cbn [negb orb]. exec.
  destruct Hfilter as [Hobj | [Hnone ->]].
  - rewrite Hobj. cbn [truthy]. exec.
    cbn [Object_keys Object_entries bind ret Monad_Completion Completion_bind]. exec.
    destruct entries as [| entry entries].
    + cbn [map List.length Nat.ltb Nat.leb]. exec. cbn [truthy Str.is_empty negb].
      destruct (truthy (opt req_body "groupBy")); explore; reflexivity.
    + cbn [map List.length Nat.ltb Nat.leb]. exec.
      rewrite (Array_map_filter_clause _ Hlit). exec.
      cbn [truthy map].
      rewrite (join_not_empty " AND " (clause_of entry) (map clause_of entries)).
      2: { apply clause_of_not_empty. inversion Hlit; assumption. }
      cbn [negb].
      destruct (truthy (opt req_body "groupBy")); explore; reflexivity.
  - rewrite Hnone. exec. cbn [truthy Str.is_empty negb].
    destruct (truthy (opt req_body "groupBy")); explore; reflexivity.
Qed.

Lemma statistics_call_witness :
  fst (run (resolves_with sample_payload)
         (statistics (JObj [("field", JStr "population");
                            ("aggregation", JStr "sum");
                            ("groupBy", JStr "state");
                            ("filter", JObj [("state", JStr "CA"); ("type", JInt 1)])])))
  = [(records_url,
      JObj [("select", JStr "sum(int(population)) as sum");
            ("group_by", JStr "state");
            ("where", JStr "state = 'CA' AND type = 1")])].
Proof.
  apply (statistics_call (resolves_with sample_payload)
           (JObj [("field", JStr "population");
                  ("aggregation", JStr "sum");
                  ("groupBy", JStr "state");
                  ("filter", JObj [("state", JStr "CA"); ("type", JInt 1)])])
           "sum" "population" [("state", JStr "CA"); ("type", JInt 1)]).
  - reflexivity.
  - right; left; reflexivity.
  - reflexivity.
  - right; reflexivity.
  - left; reflexivity.
  - repeat constructor.
Defined.

Lemma opt_get (v : JValue) (key : string) (x : JValue) :
  get v key = Normal x -> opt v key = x.
Proof. unfold opt. now intros ->. Qed.

(** X6. A statistics request whose call the upstream answers is answered
    200 with the success envelope around the upstream payload, whatever
    that payload is, and metadata that echo the field, the aggregation, the
    grouping and the filter of the request as they came. *)
Theorem statistics_reply :
  forall (upstream : Upstream) (req_body : JValue)
         (url : string) (params : JValue) (response : AxiosResponse),
    fst (run upstream (statistics req_body)) = [(url, params)] ->
    upstream url params = Resolved response ->
    snd (run upstream (statistics req_body))
    = inl (mkReply 200
             (JObj [("success", JBool true);
                    ("data", data response);
                    ("metadata",
                     JObj [("field", opt req_body "field");
                           ("aggregation", opt req_body "aggregation");
                           ("groupBy", opt req_body "groupBy");
                           ("filter", opt req_body "filter")])])).
Proof.
  intros upstream req_body url params response Hcalls Hup.
  revert Hcalls. unfold statistics.
  explore; intros Hcalls; try discriminate Hcalls;
    inversion Hcalls; subst; try congruence;
    repeat match goal with
           | H : get req_body _ = Normal _ |- _ => apply opt_get in H; rewrite H
           end;
    match goal with
    | H : upstream _ _ = Resolved ?r |- _ => assert (r = response) as -> by congruence
    end; reflexivity.
Qed.

Lemma statistics_reply_witness :
  snd (run (resolves_with sample_payload)
         (statistics (JObj [("field", JStr "objectid"); ("aggregation", JStr "count")])))
  = inl (mkReply 200
           (JObj [("success", JBool true);
                  ("data", sample_payload);
                  ("metadata",
                   JObj [("field", JStr "objectid");
                         ("aggregation", JStr "count");
                         ("groupBy", JUndefined);
                         ("filter", JUndefined)])])).
Proof.
  apply (statistics_reply (resolves_with sample_payload)
           (JObj [("field", JStr "objectid"); ("aggregation", JStr "count")])
           records_url (JObj [("select", JStr "count(*) as count")])
           (mkAxiosResponse 200 sample_payload));
    reflexivity.
Defined.

(** ** [POST /search]: the reply in general *)

(** X7. A search request whose call the upstream answers with an object is
    answered 200 with the success envelope around that object; the metadata
    hold the [total_count] of the payload ([undefined] when it has none) and
    echo the five inputs of the request, each with its default when absent:
    empty texts, limit 10, offset 0. *)
Theorem search_reply :
  forall (upstream : Upstream) (req_body : JValue)
         (url : string) (params : JValue) (response : AxiosResponse),
    fst (run upstream (search req_body)) = [(url, params)] ->
    upstream url params = Resolved response ->
    readable (data response) ->
    snd (run upstream (search req_body))
    = inl (mkReply 200
             (JObj [("success", JBool true);
                    ("data", data response);
                    ("metadata",
                     JObj [("total", opt (data response) "total_count");
                           ("offset", default_to (JInt 0) (opt req_body "offset"));
                           ("limit", default_to (JInt 10) (opt req_body "limit"));
                           ("query_parameters",
                            JObj [("query", default_to (JStr "") (opt req_body "query"));
                                  ("state", default_to (JStr "") (opt req_body "state"));
                                  ("city", default_to (JStr "") (opt req_body "city"))])])])).
Proof.
  intros upstream req_body url params response Hcalls Hup Hdata.
  destruct (readable_dec req_body) as [Hr | Hr].
  - revert Hcalls. unfold search.
    repeat (rewrite (get_default_readable _ _ _ Hr); exec).
    explore; intros Hcalls; try discriminate Hcalls;
      inversion Hcalls; subst; try congruence;
      match goal with
      | H : upstream _ _ = Resolved ?r |- _ => assert (r = response) as -> by congruence
      end;
      match goal with
      | H : get (data response) "total_count" = _ |- _ =>
          rewrite (get_readable _ _ Hdata) in H; try discriminate H;
          injection H as <-
      end; reflexivity.
  - exfalso. revert Hcalls. unfold search, get_default.
    rewrite (get_unreadable _ _ Hr). discriminate.
Qed.

Lemma search_reply_witness :
  snd (run (resolves_with (JObj [("results", JArr [])]))
         (search (JObj [("query", JStr "tech"); ("offset", JInt 20)])))
  = inl (mkReply 200
           (JObj [("success", JBool true);
                  ("data", JObj [("results", JArr [])]);
                  ("metadata",
                   JObj [("total", JUndefined);
                         ("offset", JInt 20);
                         ("limit", JInt 10);
                         ("query_parameters",
                          JObj [("query", JStr "tech");
                                ("state", JStr "");
                                ("city", JStr "")])])])).
Proof.
  apply (search_reply (resolves_with (JObj [("results", JArr [])]))
           (JObj [("query", JStr "tech"); ("offset", JInt 20)])
           records_url
           (JObj [("limit", JInt 10); ("offset", JInt 20); ("where", JUndefined);
                  ("q", JStr "tech")])
           (mkAxiosResponse 200 (JObj [("results", JArr [])])));
    try reflexivity.
  apply readable_object.
Defined.

(* ===================================================================== *)
(** * What holds of every request *)
(* ===================================================================== *)

(** X8. Whatever the request and whatever the upstream does, the handler
    sends a reply: no exception escapes it. It does so after no call at
    all, or after exactly one call, and that call goes to the records of
    the dataset with an object of parameters. *)
Theorem every_request_answered :
  forall (upstream : Upstream) (request : Request),
    exists reply,
      run upstream (server request) = ([], inl reply)
      \/ exists props,
           run upstream (server request) = ([(records_url, JObj props)], inl reply).
Proof.
  intros upstream request.
  destruct request; cbn [server];
    [unfold search | unfold getUniversity | unfold getUniversityByName
     | unfold getFields | unfold statistics];
    explore; eexists; first [left; reflexivity | right; eexists; reflexivity].
Qed.

Lemma upstream_failure_shape (fallback : string) (error : Thrown) :
  fallback <> EmptyString ->
  In (code (upstream_failure fallback error)) [400; 404; 500]%Z
  /\ is_failure (upstream_failure fallback error)
  /\ truthy (error_message (upstream_failure fallback error)) = true
  /\ exists z, error_status (upstream_failure fallback error) = JInt z.
Proof.
  intros Hfallback.
  destruct (upstream_failure_reply fallback error) as (Hf & Hc & Hm & Hs).
  split; [rewrite Hc; cbn; tauto |]. split; [exact Hf |]. split.
  - rewrite Hm. unfold or_else.
    destruct (truthy (error_response_data_message error)) eqn:Hup; [exact Hup |].
    destruct fallback; [congruence | reflexivity].
  - rewrite Hs. destruct (error_response error) as [r |]; [| eexists; reflexivity].
    destruct (status r =? 0)%Z; eexists; reflexivity.
Qed.

Lemma server_run_shape (upstream : Upstream) (request : Request) :
  match run upstream (server request) with
  | (_, inl reply) =>
      code reply = 200%Z /\ opt (body reply) "success" = JBool true
      \/ In (code reply) [400; 404; 500]%Z
         /\ is_failure reply
         /\ truthy (error_message reply) = true
         /\ exists z, error_status reply = JInt z
  | (_, inr _) => False
  end.
Proof.
  destruct request; cbn [server];
    [unfold search | unfold getUniversity | unfold getUniversityByName
     | unfold getFields | unfold statistics];
    explore;
    first
      [ left; split; reflexivity
      | right; apply upstream_failure_shape; discriminate
      | right; split; [cbn; tauto |]; split; [reflexivity |];
        split; [reflexivity |]; eexists; reflexivity ].
Qed.

(** X9. Every reply is one of the two envelopes, and the HTTP status
    agrees with it: status 200 with [success: true], or one of 400, 404 and
    500 with [success: false], an [error.message] that is never empty and a
    numeric [error.status]. *)
Theorem reply_shape :
  forall (upstream : Upstream) (request : Request)
         (calls : list (string * JValue)) (reply : Reply),
    run upstream (server request) = (calls, inl reply) ->
    code reply = 200%Z /\ opt (body reply) "success" = JBool true
    \/ In (code reply) [400; 404; 500]%Z
       /\ is_failure reply
       /\ truthy (error_message reply) = true
       /\ exists z, error_status reply = JInt z.
Proof.
  intros upstream request calls reply Hrun.
  pose proof (server_run_shape upstream request) as H.
  rewrite Hrun in H. exact H.
Qed.

Lemma reply_shape_witness :
  code (failure 404 "University not found" 404) = 200%Z
  /\ opt (body (failure 404 "University not found" 404)) "success" = JBool true
  \/ In (code (failure 404 "University not found" 404)) [400; 404; 500]%Z
     /\ is_failure (failure 404 "University not found" 404)
     /\ truthy (error_message (failure 404 "University not found" 404)) = true
     /\ exists z, error_status (failure 404 "University not found" 404) = JInt z.
Proof.
  apply (reply_shape (resolves_with empty_payload)
           (GET_getUniversity (JObj [("id", JStr "42")]))
           [(records_url, JObj [("where", JStr "objectid = '42'"); ("limit", JInt 1)])]).
  reflexivity.
Defined.

Lemma server_run_codes (upstream : Upstream) (request : Request) :
  match run upstream (server request) with
  | (calls, inl reply) =>
      (code reply = 400%Z -> calls = [])
      /\ (code reply = 200%Z ->
          exists url params response,
            calls = [(url, params)] /\ upstream url params = Resolved response)
      /\ (code reply = 404%Z -> exists url params, calls = [(url, params)])
  | (_, inr _) => False
  end.
Proof.
  destruct request; cbn [server];
    [unfold search | unfold getUniversity | unfold getUniversityByName
     | unfold getFields | unfold statistics];
    explore;
    try (match goal with
         | H : strict_equals _ _ = true |- _ => solve [cbv in H; discriminate H]
         end);
    (split; [| split]; intros Hcode;
     first [ cbv in Hcode; discriminate Hcode
           | reflexivity
           | do 3 eexists; split; [reflexivity | eassumption]
           | do 2 eexists; reflexivity ]).
Qed.

(** X10. The HTTP status tells what was done with the upstream: a 400 is
    sent before any call; a 200 is sent only after one call that the
    upstream resolved; a 404 only after one call. *)
Theorem status_and_calls :
  forall (upstream : Upstream) (request : Request)
         (calls : list (string * JValue)) (reply : Reply),
    run upstream (server request) = (calls, inl reply) ->
    (code reply = 400%Z -> calls = [])
    /\ (code reply = 200%Z ->
        exists url params response,
          calls = [(url, params)] /\ upstream url params = Resolved response)
    /\ (code reply = 404%Z -> exists url params, calls = [(url, params)]).
Proof.
  intros upstream request calls reply Hrun.
  pose proof (server_run_codes upstream request) as H.
  rewrite Hrun in H. exact H.
Qed.

Lemma status_and_calls_witness :
  (code (failure 400 "Limit cannot exceed 100" 400) = 400%Z -> @nil (string * JValue) = [])
  /\ (code (failure 400 "Limit cannot exceed 100" 400) = 200%Z ->
      exists url params response,
        @nil (string * JValue) = [(url, params)]
        /\ rejects_with None url params = Resolved response)
  /\ (code (failure 400 "Limit cannot exceed 100" 400) = 404%Z ->
      exists url params, @nil (string * JValue) = [(url, params)]).
Proof.
  apply (status_and_calls (rejects_with None) (POST_search (JObj [("limit", JInt 1000)]))).
  reflexivity.
Defined.

(** X11. A request whose body (or query) is [undefined] or [null] is
    answered with HTTP 500 and the generic failure of its route, without
    any call: reading its fields throws, and the [catch] block of the
    handler takes it for a failed fetch. *)
Theorem unreadable_input :
  forall (upstream : Upstream) (request : Request) (input : JValue),
    request_input request = Some input ->
    input = JUndefined \/ input = JNull ->
    run upstream (server request)
    = ([], inl (failure 500 (generic_message request) 500)).
Proof.
  intros upstream request input Hinput Hnone.
  destruct request; cbn in Hinput; try discriminate Hinput;
    injection Hinput as ->; cbn [server];
    [unfold search, get_default | unfold getUniversity
     | unfold getUniversityByName | unfold statistics];
    rewrite (get_unreadable _ _ Hnone); reflexivity.
Qed.

Lemma unreadable_input_witness :
  run (resolves_with sample_payload) (server (POST_statistics JUndefined))
  = ([], inl (failure 500 "Failed to calculate statistics" 500)).
Proof.
  apply (unreadable_input (resolves_with sample_payload) (POST_statistics JUndefined)
           JUndefined eq_refl).
  left; reflexivity.
Defined.

(** X12. When the call of a request is rejected with an upstream response,
    the message of the envelope is the [message] of the upstream payload
    if it has a truthy one, and the generic message of the route otherwise;
    the one exception is the lookup by id on an upstream 404, whose message
    is "University not found". *)
Theorem upstream_message :
  forall (upstream : Upstream) (request : Request)
         (calls : list (string * JValue)) (reply : Reply)
         (url : string) (params : JValue) (response : AxiosResponse),
    run upstream (server request) = (calls, inl reply) ->
    calls = [(url, params)] ->
    upstream url params = Rejected (Some response) ->
    error_message reply
    = if is_lookup_by_id request && (status response =? 404)%Z
      then JStr "University not found"
      else if truthy (opt (data response) "message")
           then opt (data response) "message"
           else JStr (generic_message request).
Proof.
  intros upstream request calls reply url params response Hrun Hcalls Hup.
  destruct (server_settled _ _ _ _ Hrun) as [[-> _] | [u [p [Hc Hcall]]]];
    [discriminate Hcalls |].
  rewrite Hcalls in Hc. injection Hc as <- <-.
  rewrite Hup in Hcall. subst reply.
  destruct (is_lookup_by_id request && (status response =? 404)%Z); reflexivity.
Qed.

Lemma upstream_message_witness :
  error_message (failure 500 "Quota exceeded" 429) = JStr "Quota exceeded".
Proof.
  apply (upstream_message
           (rejects_with (Some (mkAxiosResponse 429 (JObj [("message", JStr "Quota exceeded")]))))
           GET_getFields
           [(records_url, JObj [("limit", JInt 1)])]
           (failure 500 "Quota exceeded" 429)
           records_url (JObj [("limit", JInt 1)])
           (mkAxiosResponse 429 (JObj [("message", JStr "Quota exceeded")]))
           eq_refl eq_refl eq_refl).
Defined.

(* ===================================================================== *)
(** * The schema and the routes *)
(* ===================================================================== *)

(** X13. What the schema document declares is what the application does:
    every endpoint the document lists is routed, under the method and the
    path it gives; and a request to it that lacks a parameter the document
    marks as required is answered 400 before any call to the upstream. *)
Theorem schema_required_enforced :
  forall (upstream : Upstream) (documented : JValue) (path method : string),
    In documented (match opt schema "endpoints" with JArr items => items | _ => [] end) ->
    opt documented "path" = JStr path ->
    opt documented "method" = JStr method ->
    exists handler,
      route method path = Some handler
      /\ forall (name : string) (req_query req_body : JValue),
           opt (opt (opt documented "parameters") name) "required" = JBool true ->
           readable (input_of method req_query req_body) ->
           opt (input_of method req_query req_body) name = JUndefined ->
           exists reply,
             run upstream (handler req_query req_body) = ([], inl reply)
             /\ code reply = 400%Z.
Proof.
  intros upstream documented path method Hin Hpath Hmethod.
  cbn in Hin.
  destruct Hin as [<- | [<- | [<- | [<- | []]]]];
    cbn in Hpath, Hmethod; injection Hpath as <-; injection Hmethod as <-;
    eexists; (split; [reflexivity |]);
    intros name req_query req_body Hreq Hr Hmissing;
    match type of Hreq with
    | context [opt (endpoint ?p ?m ?d ?ps ?rt ?rd) "parameters"] =>
        change (opt (endpoint p m d ps rt rd) "parameters") with (JObj ps) in Hreq
    end;
    cbn [opt get or_undefined lookup] in Hreq;
    repeat match type of Hreq with
           | context [String.eqb ?k name] =>
               let E := fresh "E" in
               destruct (String.eqb k name) eqn:E;
               [apply String.eqb_eq in E; subst name; cbn in Hreq
               | clear E; cbn [opt get or_undefined lookup] in Hreq]
           end;
    try discriminate Hreq;
    cbn [input_of String.eqb Ascii.eqb Bool.eqb] in *.
  - (* /statistics, field *)
    unfold statistics. repeat (rewrite (get_readable _ _ Hr); exec).
    rewrite Hmissing. eexists; split; reflexivity.
  - (* /statistics, aggregation *)
    unfold statistics. repeat (rewrite (get_readable _ _ Hr); exec).
    rewrite Hmissing. cbn [truthy negb]. rewrite orb_true_r.
    eexists; split; reflexivity.
  - (* /getUniversityByName, name *)
    unfold getUniversityByName. rewrite (get_readable _ _ Hr); exec.
    rewrite Hmissing. eexists; split; reflexivity.
Qed.

Lemma schema_required_enforced_witness :
  exists handler,
    route "POST" "/statistics" = Some handler
    /\ forall (name : string) (req_query req_body : JValue),
         opt (opt (opt (endpoint "/statistics" "POST"
                          "Get statistical information about universities"
                          [("field", parameter "string"
                              "Field to analyze (e.g., 'objectid', 'population')" true);
                           ("aggregation", parameter "string"
                              "Type of aggregation (count, sum, avg, min, max)" true);
                           ("groupBy", parameter "string"
                              "Field to group by (e.g., 'state', 'city')" false);
                           ("filter", parameter "object" "Filter conditions to apply" false)]
                          "object" "Statistical results")
                     "parameters") name) "required" = JBool true ->
         readable (input_of "POST" req_query req_body) ->
         opt (input_of "POST" req_query req_body) name = JUndefined ->
         exists reply,
           run (resolves_with sample_payload) (handler req_query req_body) = ([], inl reply)
           /\ code reply = 400%Z.
Proof.
  apply (schema_required_enforced (resolves_with sample_payload)
           (endpoint "/statistics" "POST" "Get statistical information about universities"
              [("field", parameter "string"
                  "Field to analyze (e.g., 'objectid', 'population')" true);
               ("aggregation", parameter "string"
                  "Type of aggregation (count, sum, avg, min, max)" true);
               ("groupBy", parameter "string"
                  "Field to group by (e.g., 'state', 'city')" false);
               ("filter", parameter "object" "Filter conditions to apply" false)]
              "object" "Statistical results")
           "/statistics" "POST").
  - cbn. right; right; left; reflexivity.
  - reflexivity.
  - reflexivity.
Defined.

(* ===================================================================== *)
(** * The client library *)
(* ===================================================================== *)

Lemma client_run_returns (network : Client.Network) (this_baseUrl : JValue)
    (call : Client.Call) :
  match Client.Fetching_run network (Client.perform this_baseUrl call) with
  | (fetched, inl result) =>
      exists url options,
        fetched = [(url, options)]
        /\ network url options = Client.Fetched true (Some result)
  | (fetched, inr _) => (List.length fetched <= 1)%nat
  end.
Proof.
  destruct call; cbn [Client.perform];
    unfold Client.getSchema, Client.searchUniversities, Client.getUniversity,
           Client.getFields, Client.getUniversityByName, Client.getStatistics,
           Client._request;
    explore_client;
    first [ cbn; lia
          | do 2 eexists; split; [reflexivity |];
            match goal with
            | H : negb ?ok = false |- _ => destruct ok; [eassumption | discriminate H]
            end ].
Qed.

(** X14. A method of the client returns a value only when its one fetch
    was answered with an ok response whose body is JSON, and the value is
    that body as it is; in every other case it throws. *)
Theorem client_returns_ok_body :
  forall (network : Client.Network) (this_baseUrl : JValue) (call : Client.Call)
         (fetched : list (string * JValue)) (result : JValue),
    Client.Fetching_run network (Client.perform this_baseUrl call) = (fetched, inl result) ->
    exists url options,
      fetched = [(url, options)]
      /\ network url options = Client.Fetched true (Some result).
Proof.
  intros network this_baseUrl call fetched result Hrun.
  pose proof (client_run_returns network this_baseUrl call) as H.
  rewrite Hrun in H. exact H.
Qed.

Lemma client_returns_ok_body_witness :
  exists url options,
    [("http://localhost:3000/getFields",
      JObj [("method", JStr "GET");
            ("headers", JObj [("Content-Type", JStr "application/json");
                              ("Accept", JStr "application/json")])])]
    = [(url, options)]
    /\ (fun _ _ => Client.Fetched true (Some (JObj [("success", JBool true)]))) url options
       = Client.Fetched true (Some (JObj [("success", JBool true)])).
Proof.
  apply (client_returns_ok_body
           (fun _ _ => Client.Fetched true (Some (JObj [("success", JBool true)])))
           (Client.UniversityDataClient JUndefined) Client.call_getFields).
  reflexivity.
Defined.

(** X15. A method of the client never fetches twice: whatever the network
    does, it issues no fetch (when its URL cannot be built) or exactly
    one, and nothing is retried after a failure. *)
Theorem client_fetches_once :
  forall (network : Client.Network) (this_baseUrl : JValue) (call : Client.Call),
    (List.length (fst (Client.Fetching_run network (Client.perform this_baseUrl call))) <= 1)%nat.
Proof.
  intros network this_baseUrl call.
  pose proof (client_run_returns network this_baseUrl call) as H.
  destruct (Client.Fetching_run network (Client.perform this_baseUrl call)) as [fetched [result | e]].
  - destruct H as [url [options [-> _]]]. cbn. lia.
  - exact H.
Qed.

Lemma client_run_failure (network : Client.Network) (this_baseUrl : JValue)
    (call : Client.Call) :
  match Client.Fetching_run network (Client.perform this_baseUrl call) with
  | ([(url, options)], outcome) =>
      match network url options with
      | Client.NotFetched => outcome = inr Client.FetchRejected
      | Client.Fetched ok json =>
          match json with
          | None => outcome = inr Client.ThrownSyntaxError
          | Some result =>
              outcome
              = if ok then inl result
                else match get result "error" with
                     | Normal error =>
                         match ToString (or_else (opt error "message")
                                           (JStr "Request failed")) with
                         | Normal message => inr (Client.ThrownError message)
                         | ThrowTypeError => inr Client.ThrownTypeError
                         end
                     | ThrowTypeError => inr Client.ThrownTypeError
                     end
          end
      end
  | _ => True
  end.
Proof.
  destruct call; cbn [Client.perform];
    unfold Client.getSchema, Client.searchUniversities, Client.getUniversity,
           Client.getFields, Client.getUniversityByName, Client.getStatistics,
           Client._request;
    explore_client; try exact I;
    match goal with
    | H : network ?u ?p = _ |- context [network ?u ?p] => rewrite H
    end;
    try match goal with
        | H : negb ?ok = _ |- _ => destruct ok; cbn in H; try discriminate H
        end;
    repeat match goal with
           | H : get _ _ = _ |- _ => rewrite H; clear H
           | H : ToString _ = _ |- _ => rewrite H; clear H
           end;
    reflexivity.
Qed.

(** X16. When the one fetch of a method is answered with a response that
    is not ok and whose body is a JSON object or array, the method throws
    an [Error] whose message is the text [error.message] of that body when
    it holds a non-empty one (the message of the failure envelope the
    server sends) and "Request failed" when [error], or its [message], is
    missing or falsy. *)
Theorem client_error_message :
  forall (network : Client.Network) (this_baseUrl : JValue) (call : Client.Call)
         (url : string) (options result : JValue) (outcome : JValue + Client.Failure),
    Client.Fetching_run network (Client.perform this_baseUrl call) = ([(url, options)], outcome) ->
    network url options = Client.Fetched false (Some result) ->
    readable result ->
    (forall text, opt (opt result "error") "message" = JStr text ->
                  text <> EmptyString ->
                  outcome = inr (Client.ThrownError text))
    /\ (truthy (opt (opt result "error") "message") = false ->
        outcome = inr (Client.ThrownError "Request failed")).
Proof.
  intros network this_baseUrl call url options result outcome Hrun Hnet Hr.
  pose proof (client_run_failure network this_baseUrl call) as H.
  rewrite Hrun, Hnet, (get_readable _ _ Hr) in H. subst outcome.
  split.
  - intros text Hm Htext. unfold or_else. rewrite Hm.
    destruct text; [congruence | reflexivity].
  - intros Hm. unfold or_else. rewrite Hm. reflexivity.
Qed.

Lemma client_error_message_witness :
  (forall text,
      opt (opt (body (failure 500 "Failed to fetch dataset fields" 500)) "error") "message"
      = JStr text ->
      text <> EmptyString ->
      @inr JValue Client.Failure (Client.ThrownError "Failed to fetch dataset fields")
      = inr (Client.ThrownError text))
  /\ (truthy (opt (opt (body (failure 500 "Failed to fetch dataset fields" 500)) "error")
                 "message")
      = false ->
      @inr JValue Client.Failure (Client.ThrownError "Failed to fetch dataset fields")
      = inr (Client.ThrownError "Request failed")).
Proof.
  apply (client_error_message
           (fun _ _ => Client.Fetched false
                         (Some (body (failure 500 "Failed to fetch dataset fields" 500))))
           (Client.UniversityDataClient JUndefined)
           Client.call_getFields
           "http://localhost:3000/getFields"
           (JObj [("method", JStr "GET");
                  ("headers", JObj [("Content-Type", JStr "application/json");
                                    ("Accept", JStr "application/json")])])
           (body (failure 500 "Failed to fetch dataset fields" 500))).
  - reflexivity.
  - reflexivity.
  - apply readable_object.
Defined.

(** X17. The other ways a method of the client fails once it has fetched:
    the rejection of [fetch] is thrown on as it is; a body that is not
    JSON makes the method throw a [SyntaxError] whether the response is ok
    or not, the status being looked at only after the body is parsed; and
    a response that is not ok with the JSON body [null] makes it throw a
    [TypeError] rather than the [Error] "Request failed". *)
Theorem client_fetch_failures :
  forall (network : Client.Network) (this_baseUrl : JValue) (call : Client.Call)
         (url : string) (options : JValue) (outcome : JValue + Client.Failure),
    Client.Fetching_run network (Client.perform this_baseUrl call) = ([(url, options)], outcome) ->
    (network url options = Client.NotFetched -> outcome = inr Client.FetchRejected)
    /\ (forall ok, network url options = Client.Fetched ok None ->
                   outcome = inr Client.ThrownSyntaxError)
    /\ (network url options = Client.Fetched false (Some JNull) ->
        outcome = inr Client.ThrownTypeError).
Proof.
  intros network this_baseUrl call url options outcome Hrun.
  pose proof (client_run_failure network this_baseUrl call) as H.
  rewrite Hrun in H.
  split; [| split].
  - intros Hnet. rewrite Hnet in H. exact H.
  - intros ok Hnet. rewrite Hnet in H. exact H.
  - intros Hnet. rewrite Hnet in H. exact H.
Qed.

Lemma client_fetch_failures_witness :
  ((fun _ _ => Client.Fetched false None) "http://localhost:3000/schema"
     (JObj [("method", JStr "GET");
            ("headers", JObj [("Content-Type", JStr "application/json");
                              ("Accept", JStr "application/json")])])
   = Client.NotFetched ->
   @inr JValue Client.Failure Client.ThrownSyntaxError = inr Client.FetchRejected)
  /\ (forall ok,
         (fun _ _ => Client.Fetched false None) "http://localhost:3000/schema"
           (JObj [("method", JStr "GET");
                  ("headers", JObj [("Content-Type", JStr "application/json");
                                    ("Accept", JStr "application/json")])])
         = Client.Fetched ok None ->
         @inr JValue Client.Failure Client.ThrownSyntaxError = inr Client.ThrownSyntaxError)
  /\ ((fun _ _ => Client.Fetched false None) "http://localhost:3000/schema"
        (JObj [("method", JStr "GET");
               ("headers", JObj [("Content-Type", JStr "application/json");
                                 ("Accept", JStr "application/json")])])
      = Client.Fetched false (Some JNull) ->
      @inr JValue Client.Failure Client.ThrownSyntaxError = inr Client.ThrownTypeError).
Proof.
  apply (client_fetch_failures (fun _ _ => Client.Fetched false None)
           (Client.UniversityDataClient JUndefined) Client.call_getSchema
           "http://localhost:3000/schema"
           (JObj [("method", JStr "GET");
                  ("headers", JObj [("Content-Type", JStr "application/json");
                                    ("Accept", JStr "application/json")])])
           (inr Client.ThrownSyntaxError)).
  reflexivity.
Defined.

Lemma client_run_fetch (network : Client.Network) (this_baseUrl : JValue)
    (call : Client.Call) (base query : string) :
  ToString this_baseUrl = Normal base ->
  query_of call = Normal query ->
  fst (Client.Fetching_run network (Client.perform this_baseUrl call))
  = [(base ++ Client.path_of call ++ query,
      JObj ([("method", JStr (Client.method_of call));
             ("headers", JObj [("Content-Type", JStr "application/json");
                               ("Accept", JStr "application/json")])]
            ++ (if truthy (data_of call) && String.eqb (Client.method_of call) "POST"
                then [("body", match Client.JSON_stringify (data_of call) with
                               | Some text => JStr text
                               | None => JUndefined
                               end)]
                else []))%list)].
Proof.
  intros Hbase Hquery.
  destruct call as [| params | id | | name | params];
    cbn [Client.perform query_of data_of Client.method_of Client.path_of] in *;
    unfold Client.getSchema, Client.searchUniversities, Client.getUniversity,
           Client.getFields, Client.getUniversityByName, Client.getStatistics;
    try (destruct (Client.encodeURIComponent _) as [encoded |];
         cbn [bind ret Monad_Completion Completion_bind] in Hquery;
         [injection Hquery as <- | discriminate Hquery]);
    try (injection Hquery as <-);
    try (destruct params as [| | [|] | [q | | |] | [| c s] | items | props]);
    unfold Client._request; exec_client; rewrite Hbase; exec_client;
    cbn [default_to truthy Str.is_empty negb andb strict_equals
         String.eqb Ascii.eqb Bool.eqb app];
    try (destruct (Qeq_bool q 0); cbn [negb andb app]);
    explore_client; reflexivity.
Qed.

(** X18. The client and the server agree on the routes. A method of the
    client whose base URL and argument convert to text issues exactly one
    fetch; its URL is the base URL, then the path of the method, then the
    query string, which for the lookups is the name of the parameter and
    the percent-encoded argument; its HTTP method is the one under which
    the server registers a handler for that path. *)
Theorem client_calls_registered_route :
  forall (network : Client.Network) (this_baseUrl : JValue) (call : Client.Call)
         (base query : string),
    ToString this_baseUrl = Normal base ->
    query_of call = Normal query ->
    exists options handler,
      fst (Client.Fetching_run network (Client.perform this_baseUrl call))
      = [(base ++ Client.path_of call ++ query, JObj options)]
      /\ lookup "method" options = Some (JStr (Client.method_of call))
      /\ route (Client.method_of call) (Client.path_of call) = Some handler.
Proof.
  intros network this_baseUrl call base query Hbase Hquery.
  pose proof (client_run_fetch network this_baseUrl call base query Hbase Hquery) as H.
  eexists. destruct call; eexists; (split; [exact H |]); split; reflexivity.
Qed.

Lemma client_calls_registered_route_witness :
  exists options handler,
    fst (Client.Fetching_run (fun _ _ => Client.NotFetched)
           (Client.perform (Client.UniversityDataClient JUndefined)
              (Client.call_getUniversityByName (JStr "Foo U & Sons"))))
    = [("http://localhost:3000" ++ "/getUniversityByName" ++ "?name=Foo%20U%20%26%20Sons",
        JObj options)]
    /\ lookup "method" options = Some (JStr "GET")
    /\ route "GET" "/getUniversityByName" = Some handler.
Proof.
  apply (client_calls_registered_route (fun _ _ => Client.NotFetched)
           (Client.UniversityDataClient JUndefined)
           (Client.call_getUniversityByName (JStr "Foo U & Sons"))
           "http://localhost:3000" "?name=Foo%20U%20%26%20Sons");
    reflexivity.
Defined.

Lemma JSON_stringify_truthy (v : JValue) :
  truthy v = true -> exists text, Client.JSON_stringify v = Some text.
Proof.
  destruct v as [| | b | [q | | |] | s | items | props]; cbn [truthy];
    intros H; try discriminate H; eexists; reflexivity.
Qed.

(** X19. What a method of the client sends as the body of its fetch: the
    GET methods, nothing; [searchUniversities] and [getStatistics], the JSON
    text of their parameters when these are truthy, and nothing when they
    are falsy. [searchUniversities] takes an empty object for parameters it
    is not given, so it sends a body then and the text [{}];
    [getStatistics] called without parameters sends no body. *)
Theorem client_body :
  forall (network : Client.Network) (this_baseUrl : JValue) (call : Client.Call)
         (base query : string),
    ToString this_baseUrl = Normal base ->
    query_of call = Normal query ->
    exists url options,
      fst (Client.Fetching_run network (Client.perform this_baseUrl call)) = [(url, JObj options)]
      /\ (Client.method_of call = "GET" -> lookup "body" options = None)
      /\ (Client.method_of call = "POST" ->
          (truthy (data_of call) = false -> lookup "body" options = None)
          /\ (truthy (data_of call) = true ->
              exists text,
                Client.JSON_stringify (data_of call) = Some text
                /\ lookup "body" options = Some (JStr text)))
      /\ (call = Client.call_searchUniversities JUndefined ->
          lookup "body" options = Some (JStr "{}"))
      /\ (call = Client.call_getStatistics JUndefined -> lookup "body" options = None).
Proof.
  intros network this_baseUrl call base query Hbase Hquery.
  pose proof (client_run_fetch network this_baseUrl call base query Hbase Hquery) as H.
  do 2 eexists. split; [exact H |].
  split; [| split; [| split]].
  - intros Hget. rewrite Hget. cbn [String.eqb Ascii.eqb Bool.eqb]. rewrite andb_false_r.
    reflexivity.
  - intros Hpost. rewrite Hpost. cbn [String.eqb Ascii.eqb Bool.eqb]. rewrite andb_true_r.
    split; intros Hdata; rewrite Hdata.
    + reflexivity.
    + destruct (JSON_stringify_truthy _ Hdata) as [text Htext].
      exists text. rewrite Htext. split; reflexivity.
  - intros ->. reflexivity.
  - intros ->. reflexivity.
Qed.

Lemma client_body_witness :
  exists url options,
    fst (Client.Fetching_run (fun _ _ => Client.NotFetched)
           (Client.perform (JStr "http://example.org")
              (Client.call_getStatistics (JObj [("field", JInt 7)]))))
    = [(url, JObj options)]
    /\ (Client.method_of (Client.call_getStatistics (JObj [("field", JInt 7)])) = "GET" ->
        lookup "body" options = None)
    /\ (Client.method_of (Client.call_getStatistics (JObj [("field", JInt 7)])) = "POST" ->
        (truthy (data_of (Client.call_getStatistics (JObj [("field", JInt 7)]))) = false ->
         lookup "body" options = None)
        /\ (truthy (data_of (Client.call_getStatistics (JObj [("field", JInt 7)]))) = true ->
            exists text,
              Client.JSON_stringify (data_of (Client.call_getStatistics (JObj [("field", JInt 7)])))
              = Some text
              /\ lookup "body" options = Some (JStr text)))
    /\ (Client.call_getStatistics (JObj [("field", JInt 7)])
        = Client.call_searchUniversities JUndefined ->
        lookup "body" options = Some (JStr "{}"))
    /\ (Client.call_getStatistics (JObj [("field", JInt 7)])
        = Client.call_getStatistics JUndefined ->
        lookup "body" options = None).
Proof.
  apply (client_body (fun _ _ => Client.NotFetched) (JStr "http://example.org")
           (Client.call_getStatistics (JObj [("field", JInt 7)]))
           "http://example.org" EmptyString);
    reflexivity.
Defined.

(** ** The URL of a lookup *)

Lemma chars_append (a b : string) :
  list_ascii_of_string (a ++ b) = (list_ascii_of_string a ++ list_ascii_of_string b)%list.
Proof. induction a as [| c a IH]; cbn; [reflexivity | now rewrite IH]. Qed.

Lemma hex_digit_unreserved (n : nat) :
  Client.unreserved (Client.hex_digit "0123456789ABCDEF" n) = true.
Proof. do 16 (destruct n as [| n]; [reflexivity |]). reflexivity. Qed.

Lemma percent_safe (octet : nat) (c : ascii) :
  In c (list_ascii_of_string (Client.percent octet)) ->
  Client.unreserved c = true \/ c = "%"%char.
Proof.
  cbn. intros [<- | [<- | [<- | []]]]; auto using hex_digit_unreserved.
Qed.

Lemma encode_safe (s : string) (c : ascii) :
  In c (list_ascii_of_string (Client.encode s)) ->
  Client.unreserved c = true \/ c = "%"%char.
Proof.
  induction s as [| x s IH]; cbn [Client.encode]; [intros [] |].
  rewrite chars_append, in_app_iff. intros [H | H]; [| auto].
  unfold Client.encode_unit in H.
  destruct (Client.unreserved x) eqn:Hx.
  - destruct H as [<- | []]. now left.
  - destruct (nat_of_ascii x <? 128)%nat.
    + eapply percent_safe; eassumption.
    + rewrite chars_append, in_app_iff in H.
      destruct H as [H | H]; eapply percent_safe; eassumption.
Qed.

(** X20. The URL of a lookup has one parameter whatever the argument: the
    client fetches the base URL followed by [/getUniversity?id=] (or
    [/getUniversityByName?name=]) and the encoded argument, in which every
    character is a letter, a digit, one of [- _ . ! ~ * ' ( )] or a percent
    sign, so that no delimiter of a URL ([& = ? # / + : ; , @ $] or a
    space) occurs in it. *)
Theorem lookup_url_single_parameter :
  forall (network : Client.Network) (this_baseUrl argument : JValue)
         (base encoded : string),
    ToString this_baseUrl = Normal base ->
    Client.encodeURIComponent argument = Normal encoded ->
    (exists options,
        fst (Client.Fetching_run network (Client.getUniversity this_baseUrl argument))
        = [(base ++ "/getUniversity?id=" ++ encoded, options)])
    /\ (exists options,
           fst (Client.Fetching_run network (Client.getUniversityByName this_baseUrl argument))
           = [(base ++ "/getUniversityByName?name=" ++ encoded, options)])
    /\ (forall c, In c (list_ascii_of_string encoded) ->
                  Client.unreserved c = true \/ c = "%"%char)
    /\ Forall (fun d => ~ In d (list_ascii_of_string encoded)) delimiters.
Proof.
  intros network this_baseUrl argument base encoded Hbase Hencoded.
  assert (Hsafe : forall c, In c (list_ascii_of_string encoded) ->
                            Client.unreserved c = true \/ c = "%"%char).
  { unfold Client.encodeURIComponent in Hencoded.
    destruct (ToString argument) as [s |]; [| discriminate Hencoded].
    injection Hencoded as <-. apply encode_safe. }
  split; [| split; [| split]].
  - eexists.
    apply (client_run_fetch network this_baseUrl (Client.call_getUniversity argument)
             base ("?id=" ++ encoded) Hbase).
    cbn [query_of]. rewrite Hencoded. reflexivity.
  - eexists.
    apply (client_run_fetch network this_baseUrl (Client.call_getUniversityByName argument)
             base ("?name=" ++ encoded) Hbase).
    cbn [query_of]. rewrite Hencoded. reflexivity.
  - exact Hsafe.
  - unfold delimiters.
    repeat (constructor;
            [intros Hin; destruct (Hsafe _ Hin) as [H | H]; discriminate H |]).
    constructor.
Qed.

Lemma lookup_url_single_parameter_witness :
  (exists options,
      fst (Client.Fetching_run (fun _ _ => Client.NotFetched)
             (Client.getUniversity (JStr "http://localhost:3000") (JStr "7&limit=100")))
      = [("http://localhost:3000" ++ "/getUniversity?id=" ++ "7%26limit%3D100", options)])
  /\ (exists options,
         fst (Client.Fetching_run (fun _ _ => Client.NotFetched)
                (Client.getUniversityByName (JStr "http://localhost:3000")
                   (JStr "7&limit=100")))
         = [("http://localhost:3000" ++ "/getUniversityByName?name=" ++ "7%26limit%3D100",
             options)])
  /\ (forall c, In c (list_ascii_of_string "7%26limit%3D100") ->
                Client.unreserved c = true \/ c = "%"%char)
  /\ Forall (fun d => ~ In d (list_ascii_of_string "7%26limit%3D100")) delimiters.
Proof.
  apply (lookup_url_single_parameter (fun _ _ => Client.NotFetched)
           (JStr "http://localhost:3000") (JStr "7&limit=100")
           "http://localhost:3000" "7%26limit%3D100");
    reflexivity.
Defined.

(** ** Edge cases of the handlers *)

Lemma ToString_texts (texts : list string) :
  ToString (JArr (map JStr texts)) = Normal (Str.join "," texts).
Proof.
  cbn [ToString].
  induction texts as [| a [| b texts] IH]; [reflexivity | reflexivity |].
  cbn [map] in *. rewrite IH. reflexivity.
Qed.

(** X21. A lookup whose parameter is repeated in the query string, which
    express hands over as an array of texts, is not rejected: the texts are
    joined by commas into one quoted literal of the [where] of the call. *)
Theorem lookup_repeated_parameter :
  forall (upstream : Upstream) (req_query : JValue) (texts : list string),
    (opt req_query "id" = JArr (map JStr texts) ->
     fst (run upstream (getUniversity req_query))
     = [(records_url,
         JObj [("where", JStr ("objectid = '" ++ Str.join "," texts ++ "'"));
               ("limit", JInt 1)])])
    /\ (opt req_query "name" = JArr (map JStr texts) ->
        fst (run upstream (getUniversityByName req_query))
        = [(records_url,
            JObj [("where", JStr ("name = '" ++ Str.join "," texts ++ "'"));
                  ("limit", JInt 1)])]).
Proof.
  intros upstream req_query texts.
  split; intros H;
    (assert (Hr : readable req_query)
       by (eapply opt_defined_readable; rewrite H; discriminate));
    [unfold getUniversity | unfold getUniversityByName];
    rewrite (get_readable _ _ Hr), H; exec; cbn [truthy negb];
    rewrite ToString_texts; explore; reflexivity.
Qed.

Lemma lookup_repeated_parameter_witness :
  fst (run (resolves_with empty_payload)
         (getUniversity (JObj [("id", JArr [JStr "7"; JStr "8"])])))
  = [(records_url,
      JObj [("where", JStr "objectid = '7,8'"); ("limit", JInt 1)])].
Proof.
  apply (proj1 (lookup_repeated_parameter (resolves_with empty_payload)
                  (JObj [("id", JArr [JStr "7"; JStr "8"])]) ["7"; "8"])).
  reflexivity.
Defined.

Lemma trim_blank (s : string) : Str.trim s = EmptyString -> StringToNumber s = of_Z 0.
Proof. intros H. unfold StringToNumber. rewrite H. reflexivity. Qed.

(** X22. What field discovery makes of the values that are not numbers
    but that [Number] converts: for a key without [date] or [time] in it, a
    sample value that is [null], a boolean, an empty or blank text or an
    empty array is given the type [number]; a plain object is given the
    type [object]. *)
Theorem field_type_of_converted_values :
  forall (sampleRecord value : JValue) (key : string),
    get sampleRecord key = Normal value ->
    Str.includes key "date" = false ->
    Str.includes key "time" = false ->
    let field type :=
      Normal (JObj [("name", JStr key);
                    ("type", JStr type);
                    ("description", JStr (Str.replace_all "_" " " key))]) in
    (value = JNull \/ (exists b, value = JBool b) \/ value = JArr []
     \/ (exists s, value = JStr s /\ Str.trim s = EmptyString) ->
     field_of sampleRecord key = field "number")
    /\ (forall props, value = JObj props -> has_own "toString" props = false ->
                      field_of sampleRecord key = field "object").
Proof.
  intros sampleRecord value key Hget Hdate Htime field.
  unfold field_of. rewrite Hget, Hdate, Htime.
  cbn [bind ret Monad_Completion Completion_bind orb].
  split.
  - intros [-> | [[b ->] | [-> | [s [-> Hblank]]]]];
      cbn [ToNumber ToString]; try rewrite (trim_blank _ Hblank); reflexivity.
  - intros props -> Hown. cbn [ToNumber ToString]. rewrite Hown. reflexivity.
Qed.

Lemma field_type_of_converted_values_witness :
  field_of (JObj [("closed", JNull); ("geo_point", JObj [("lon", JInt 1); ("lat", JInt 2)])])
    "closed"
  = Normal (JObj [("name", JStr "closed");
                  ("type", JStr "number");
                  ("description", JStr "closed")])
  /\ field_of (JObj [("closed", JNull); ("geo_point", JObj [("lon", JInt 1); ("lat", JInt 2)])])
       "geo_point"
     = Normal (JObj [("name", JStr "geo_point");
                     ("type", JStr "object");
                     ("description", JStr "geo point")]).
Proof.
  split.
  - apply (proj1 (field_type_of_converted_values
                    (JObj [("closed", JNull);
                           ("geo_point", JObj [("lon", JInt 1); ("lat", JInt 2)])])
                    JNull "closed" eq_refl eq_refl eq_refl)).
    left; reflexivity.
  - apply (proj2 (field_type_of_converted_values
                    (JObj [("closed", JNull);
                           ("geo_point", JObj [("lon", JInt 1); ("lat", JInt 2)])])
                    (JObj [("lon", JInt 1); ("lat", JInt 2)]) "geo_point"
                    eq_refl eq_refl eq_refl)
             [("lon", JInt 1); ("lat", JInt 2)] eq_refl eq_refl).
Defined.

(** X23. The limit of a search is checked only as a number: a limit that
    [Number] turns into NaN, such as a text that is not a numeric literal,
    is not rejected, and the call carries it as it came. *)
Theorem search_limit_not_a_number :
  forall (upstream : Upstream) (req_body limit : JValue),
    opt req_body "limit" = limit ->
    limit <> JUndefined ->
    ToNumber limit = Normal NaN ->
    text_or_absent (opt req_body "state") ->
    text_or_absent (opt req_body "city") ->
    exists params,
      fst (run upstream (search req_body)) = [(records_url, JObj params)]
      /\ lookup "limit" params = Some limit.
Proof.
  intros upstream req_body limit Hlimit Hdef Hnan Hs Hc.
  assert (Hr : readable req_body).
  { apply (opt_defined_readable _ "limit"). congruence. }
  assert (Hgt : gt (default_to (JInt 10) (opt req_body "limit")) (of_Z 100) = Normal false).
  { rewrite Hlimit, (default_to_defined _ _ Hdef). unfold gt. rewrite Hnan. reflexivity. }
  pose proof (search_call upstream req_body Hr Hs Hc Hgt) as Hcall.
  cbv zeta in Hcall. rewrite Hlimit, (default_to_defined _ _ Hdef) in Hcall.
  eexists. split; [exact Hcall | reflexivity].
Qed.

Lemma search_limit_not_a_number_witness :
  exists params,
    fst (run (resolves_with empty_payload) (search (JObj [("limit", JStr "a lot")])))
    = [(records_url, JObj params)]
    /\ lookup "limit" params = Some (JStr "a lot").
Proof.
  apply (search_limit_not_a_number (resolves_with empty_payload)
           (JObj [("limit", JStr "a lot")]) (JStr "a lot") eq_refl).
  - discriminate.
  - reflexivity.
  - left; reflexivity.
  - left; reflexivity.
Defined.
